(** * creashift: the JSON-file resource store of [src/server/server.js]

    A shallow embedding of the Express handlers of the server: the login
    check, the generic CRUD routes that [setupCRUD] registers, the [hero]
    singleton routes and the contact form.  Handlers are functions in a small
    state-and-exception monad over a [World] that holds the database file,
    the clock, the mail transport and the trace of effects. *)

From Stdlib Require Import ZArith PrimFloat.
From stdpp Require Import gmap strings list fin_maps pretty.

#[local] Set Warnings "-register-all".
#[local] Open Scope Z_scope.

(** ** JSON values

    What [JSON.parse] returns and what [express.json()] puts in [req.body].
    Every value that a handler answers or stores goes through
    [JSON.stringify], which prints a number that is not finite as [null] and
    negative zero as [0]; every other number is printed so that it is read
    back as the same double.  A number of the model is such a double, finite
    and not negative zero: a document or a request body that holds another
    one ([1e400], which [JSON.parse] reads as [Infinity], or [-0]) is outside
    the model.  A string is the text of a JavaScript string in UTF-8, a
    surrogate that stands alone encoded like any other code point.
    An object is a finite map from property names to values: the order of
    the keys, which only shows in the text that [JSON.stringify] produces, is
    not part of the model. *)

Definition prints_exactly (x : float) : bool :=
  PrimFloat.eqb x x &&
  match PrimFloat.classify x with
  | FloatClass.PInf | FloatClass.NInf | FloatClass.NZero | FloatClass.NaN => false
  | _ => true
  end.

Record number : Type := Number {
  double : float;
  double_prints : prints_exactly double = true }.

Inductive json : Type :=
  | JNull
  | JBool (b : bool)
  | JNum (x : number)
  | JStr (s : string)
  | JArr (items : list json)
  | JObj (props : gmap string json).

(** A JavaScript value that a property read can return: [None] is
    [undefined]. *)
Abbreviation value := (option json).

(** ** The fragment of JavaScript the handlers use *)

Module JS.

Inductive exn : Type :=
  | TypeError      (* property of null or undefined, call of a non-function *)
  | SyntaxError    (* JSON.parse on text that is not JSON *)
  | SystemError.   (* fs: ENOENT, EACCES, ... *)

Inductive result (A : Type) : Type :=
  | Ok (a : A)
  | Throw (e : exn).
Arguments Ok {A} a.
Arguments Throw {A} e.

#[global] Instance result_ret : MRet result := λ A a, Ok a.

#[global] Instance result_bind : MBind result := λ A B f r,
  match r with
  | Ok a => f a
  | Throw e => Throw e
  end.

(** [v.k] for the property names the handlers read ([id], [username],
    [password], [name], [phone], [email], [company], [message]): none of
    them is an array index or [length], and no prototype defines them, so
    only an object can hold one.  Reading a property of [null] or
    [undefined] throws. *)
Definition field (v : value) (k : string) : result value :=
  match v with
  | None | Some JNull => Throw TypeError
  | Some (JObj props) => Ok (props !! k)
  | Some _ => Ok None
  end.

(** ToBoolean. *)
Definition truthy (v : value) : bool :=
  match v with
  | None | Some JNull => false
  | Some (JBool b) => b
  | Some (JNum x) => negb (PrimFloat.eqb (double x) 0%float)
                     && PrimFloat.eqb (double x) (double x)
  | Some (JStr s) => negb (String.eqb s "")
  | Some (JArr _) | Some (JObj _) => true
  end.

(** [a || b] with a [b] that is never [undefined]. *)
Definition or_else (a : value) (b : json) : json :=
  match a with
  | Some v => if truthy a then v else b
  | None => b
  end.

(** [a === b].  Arrays and objects are equal only to themselves; the
    handlers compare a value read from the database with a value of the
    request, which are never the same object. *)
Definition strict_eq (a b : value) : bool :=
  match a, b with
  | None, None => true
  | Some JNull, Some JNull => true
  | Some (JBool x), Some (JBool y) => Bool.eqb x y
  | Some (JNum x), Some (JNum y) => PrimFloat.eqb (double x) (double y)
  | Some (JStr x), Some (JStr y) => String.eqb x y
  | _, _ => false
  end.

(** The UTF-16 code units of a string, each as the string of that one
    unit.  A code point below U+10000 is one unit, written in one, two or
    three bytes of UTF-8; a code point from U+10000 on, written in four
    bytes, is two units, a high and a low surrogate.  (Bytes that are not
    UTF-8 do not occur in the text of a JavaScript string; they are left as
    they are.) *)
Definition surrogate (u : N) : string :=
  String (Ascii.ascii_of_N 237)
    (String (Ascii.ascii_of_N (128 + (u / 64) mod 64))
       (String (Ascii.ascii_of_N (128 + u mod 64)) EmptyString)).

Fixpoint code_units (s : string) : list string :=
  match s with
  | EmptyString => []
  | String a rest =>
      let lead := Ascii.N_of_ascii a in
      if (lead <? 192)%N then String a EmptyString :: code_units rest
      else if (lead <? 224)%N then
        match rest with
        | String b rest' => String a (String b EmptyString) :: code_units rest'
        | _ => [s]
        end
      else if (lead <? 240)%N then
        match rest with
        | String b (String c rest') =>
            String a (String b (String c EmptyString)) :: code_units rest'
        | _ => [s]
        end
      else
        match rest with
        | String b (String c (String d rest')) =>
            let point := (lead mod 8 * 262144 + Ascii.N_of_ascii b mod 64 * 4096
                          + Ascii.N_of_ascii c mod 64 * 64 + Ascii.N_of_ascii d mod 64)%N in
            let offset := (point - 65536)%N in
            surrogate (55296 + offset / 1024) :: surrogate (56320 + offset mod 1024)
              :: code_units rest'
        | _ => [s]
        end
  end.

(** The own enumerable properties that an object spread [{...v}] copies:
    those of an object, the elements of an array under their indices, the
    code units of a string under theirs, nothing for the rest. *)
Definition indexed (l : list json) : gmap string json :=
  list_to_map (imap (λ (i : nat) (x : json), (pretty i, x)) l).

Definition chars (s : string) : list json :=
  JStr <$> code_units s.

Definition own_props (v : value) : gmap string json :=
  match v with
  | Some (JObj props) => props
  | Some (JArr l) => indexed l
  | Some (JStr s) => indexed (chars s)
  | _ => ∅
  end.

(** [{...a, ...b}]: the properties of [b] win. *)
Definition spread2 (a b : value) : gmap string json :=
  own_props b ∪ own_props a.

(** An object literal whose values may be [undefined]; a later property
    replaces an earlier one of the same name.  Such an object is only ever
    handed to [JSON.stringify], which leaves the [undefined] properties
    out. *)
Definition literal (kvs : list (string * value)) : gmap string json :=
  foldl (λ props kv,
           match kv.2 with
           | Some v => <[kv.1 := v]> props
           | None => delete kv.1 props
           end) ∅ kvs.

(** Whether [`${v}`] throws.  ToPrimitive on an object calls its
    [toString]: a parsed object that has its own [toString] property holds
    a value that cannot be called, and [Object.prototype.valueOf] returns
    the object itself, so the conversion ends in a TypeError.  An array
    joins the conversions of its elements, skipping [null]. *)
Fixpoint to_string_throws (v : json) : bool :=
  match v with
  | JObj props => bool_decide (is_Some (props !! "toString"))
  | JArr l => existsb to_string_throws l
  | _ => false
  end.

Definition interpolates (v : value) : bool :=
  match v with
  | Some j => negb (to_string_throws j)
  | None => true
  end.

(** [Date.prototype.toISOString] on a time in milliseconds since the
    epoch: the civil date of the day number, then the time of day. *)
Definition pad (width : nat) (n : Z) : string :=
  let s := pretty n in
  String.concat "" (replicate (width - String.length s)%nat "0") +:+ s.

Definition civil_from_days (days : Z) : Z * Z * Z :=
  let z := days + 719468 in
  let era := z / 146097 in
  let doe := z - era * 146097 in
  let yoe := (doe - doe / 1460 + doe / 36524 - doe / 146096) / 365 in
  let doy := doe - (365 * yoe + yoe / 4 - yoe / 100) in
  let mp := (5 * doy + 2) / 153 in
  let d := doy - (153 * mp + 2) / 5 + 1 in
  let m := if mp <? 10 then mp + 3 else mp - 9 in
  let y := yoe + era * 400 + (if m <=? 2 then 1 else 0) in
  (y, m, d).

Definition year_string (y : Z) : string :=
  if (0 <=? y) && (y <=? 9999) then pad 4 y
  else (if y <? 0 then "-" else "+") +:+ pad 6 (Z.abs y).

Definition Date_toISOString (t : Z) : string :=
  let '(y, m, d) := civil_from_days (t / 86400000) in
  let ms := t mod 86400000 in
  year_string y +:+ "-" +:+ pad 2 m +:+ "-" +:+ pad 2 d +:+ "T" +:+
  pad 2 (ms / 3600000) +:+ ":" +:+ pad 2 (ms / 60000 mod 60) +:+ ":" +:+
  pad 2 (ms / 1000 mod 60) +:+ "." +:+ pad 3 (ms mod 1000) +:+ "Z".

(** The two built-in objects the handlers construct.  A [Date] has a
    [toISOString] method, an [Error] has none: calling it is a call of
    [undefined]. *)
Inductive builtin : Type :=
  | DateObj (t : Z)
  | ErrorObj.

Definition toISOString (o : builtin) : result string :=
  match o with
  | DateObj t => Ok (Date_toISOString t)
  | ErrorObj => Throw TypeError
  end.

End JS.
Import JS.

(** ** The world outside the handlers *)

(** [database.json].  The document is one JSON object, the top-level fields
    of which are the resources; [readDB] throws when the file is missing or
    its text does not parse. *)
Inductive file : Type :=
  | NoFile
  | NotJSON
  | Doc (db : gmap string json).

(** The values that the mail template interpolates, in the order of the
    template. *)
Record mail : Type := Mail {
  mail_name : value;
  mail_phone : json;
  mail_email : value;
  mail_company : json;
  mail_message : value }.

Inductive console : Type :=
  | MessageStored        (* "Message stored in database" *)
  | EmailFailed          (* "Email failed to send:" *)
  | EmailSent            (* "Email sent: " *)
  | SubmissionFailed.    (* "Contact submission failed:" *)

Inductive event : Type :=
  | EvRead                               (* fs.readFileSync(dbPath) *)
  | EvWrite (db : gmap string json)      (* fs.writeFileSync(dbPath, ...) *)
  | EvSendMail (m : mail)                (* transporter.sendMail *)
  | EvLog (line : console)               (* console.log *)
  | EvError (line : console).            (* console.error *)

Record World : Type := MkWorld {
  disk : file;              (* the content of database.json *)
  writable : bool;          (* whether fs.writeFileSync succeeds *)
  smtp_up : bool;           (* whether the transport delivers *)
  clock : nat → Z;          (* the successive readings of the system clock *)
  ticks : nat;              (* how many readings were taken *)
  trace : list event }.     (* the effects so far, oldest first *)

Definition emit (e : event) (w : World) : World :=
  MkWorld (disk w) (writable w) (smtp_up w) (clock w) (ticks w) (trace w ++ [e]).

Definition store (db : gmap string json) (w : World) : World :=
  MkWorld (Doc db) (writable w) (smtp_up w) (clock w) (ticks w) (trace w).

Definition tick (w : World) : World :=
  MkWorld (disk w) (writable w) (smtp_up w) (clock w) (S (ticks w)) (trace w).

Definition with_smtp (b : bool) (w : World) : World :=
  MkWorld (disk w) (writable w) b (clock w) (ticks w) (trace w).

(** ** The monad of a handler: state, and exceptions that keep the state *)

Definition M (A : Type) : Type := World → result A * World.

#[global] Instance M_ret : MRet M := λ A a w, (Ok a, w).

#[global] Instance M_bind : MBind M := λ A B f m w,
  match m w with
  | (Ok a, w') => f a w'
  | (Throw e, w') => (Throw e, w')
  end.

Definition lift {A : Type} (r : result A) : M A := λ w, (r, w).

Definition effect (e : event) : M unit := λ w, (Ok tt, emit e w).

(** [try { body } catch (error) { handler }] *)
Definition try_catch {A : Type} (body : M A) (handler : exn → M A) : M A := λ w,
  match body w with
  | (Ok a, w') => (Ok a, w')
  | (Throw e, w') => handler e w'
  end.

(** [const readDB = () => JSON.parse(fs.readFileSync(dbPath, "utf8"))] *)
Definition readDB : M (gmap string json) := λ w,
  match disk w with
  | Doc db => (Ok db, emit EvRead w)
  | NotJSON => (Throw SyntaxError, emit EvRead w)
  | NoFile => (Throw SystemError, w)
  end.

(** [const writeDB = (data) => fs.writeFileSync(dbPath, JSON.stringify(data, null, 2))]
    The file then holds the text of [data], which the next [readDB] parses
    back to [data]: every number of the model is printed exactly. *)
Definition writeDB (data : gmap string json) : M unit := λ w,
  if writable w then (Ok tt, store data (emit (EvWrite data) w))
  else (Throw SystemError, w).

(** [Date.now()] and the time of [new Date()]. *)
Definition Date_now : M Z := λ w, (Ok (clock w (ticks w)), tick w).

(** [transporter.sendMail(mailOptions, callback)]: the mail is handed to
    the transport, and the callback runs once the transport has answered,
    with the error or with the delivery report.  The callback only writes to
    the console; its line is put in the trace right after the send, the
    handler does not wait for it. *)
Definition sendMail (m : mail) (callback : bool → M unit) : M unit := λ w,
  callback (smtp_up w) (emit (EvSendMail m) w).

(** ** Responses *)

Record response : Type := Response {
  status : Z;
  payload : value }.    (* the JSON body; [None] when the body is not JSON *)

(** [res.json(v)] and [res.status(code).json(v)]: the body is the text of
    [v], which the client parses back to [v]. *)
Definition res_json (v : value) : response := Response 200 v.
Definition res_status_json (code : Z) (v : json) : response := Response code (Some v).

(** An object literal [{k1: v1, ...}] with distinct names. *)
Definition obj (kvs : list (string * json)) : json := JObj (list_to_map kvs).

(** A handler that throws ends in the default error handler of Express,
    which answers 500 with a body that is not JSON. *)
Definition express (handler : M response) (w : World) : response * World :=
  match handler w with
  | (Ok r, w') => (r, w')
  | (Throw _, w') => (Response 500 None, w')
  end.

(** ** Array methods with a callback that may throw *)

(** [xs.findIndex(cb)]: the first index at which [cb] holds; JavaScript's
    [-1] is [None]. *)
Fixpoint findIndex (cb : json → result bool) (xs : list json) : result (option nat) :=
  match xs with
  | [] => Ok None
  | x :: rest =>
      found ← cb x;
      if found : bool then Ok (Some 0%nat)
      else index ← findIndex cb rest; Ok (S <$> (index : option nat))
  end.

(** [xs.filter(cb)] *)
Fixpoint filter_cb (cb : json → result bool) (xs : list json) : result (list json) :=
  match xs with
  | [] => Ok []
  | x :: rest =>
      keep ← cb x;
      kept ← filter_cb cb rest;
      Ok (if keep : bool then x :: kept else kept)
  end.

(** The receiver of [v.findIndex(...)], [v.filter(...)] and [v.push(...)]:
    only an array has these methods, a call on anything else throws. *)
Definition as_array (v : value) : result (list json) :=
  match v with
  | Some (JArr xs) => Ok xs
  | _ => Throw TypeError
  end.

(** [item.id === req.params.id]; a route parameter is a string. *)
Definition id_is (id : string) (item : json) : result bool :=
  item_id ← field (Some item) "id";
  Ok (strict_eq item_id (Some (JStr id))).

(** [item.id !== req.params.id] *)
Definition id_is_not (id : string) (item : json) : result bool :=
  same ← id_is id item;
  Ok (negb same).

(** ** The routes *)

(** [app.post("/api/login", ...)] *)
Definition post_login (body : json) : M response :=
  username ← lift (field (Some body) "username");
  password ← lift (field (Some body) "password");
  db ← readDB;
  ok ← lift (stored_username ← field (db !! "admin") "username";
             if strict_eq stored_username username then
               stored_password ← field (db !! "admin") "password";
               Ok (strict_eq stored_password password)
             else Ok false);
  if ok : bool then mret (res_json (Some (obj [("success", JBool true)])))
  else mret (res_status_json 401
               (obj [("success", JBool false); ("message", JStr "Invalid credentials")])).

(** The resources that [setupCRUD] is called on. *)
Definition resources : list string :=
  ["posts"; "services"; "metrics"; "process"; "messages"].

(** [app.get(`/api/${resource}`, ...)] *)
Definition get_resource (resource : string) : M response :=
  db ← readDB;
  mret (res_json (db !! resource)).

(** [{ id: Date.now().toString(), ...req.body, created_at: ... }] *)
Definition newItem (now : Z) (body : json) (created_at : string) : gmap string json :=
  <["created_at" := JStr created_at]> (spread2 (Some (obj [("id", JStr (pretty now))])) (Some body)).

(** [app.post(`/api/${resource}`, ...)] *)
Definition post_resource (resource : string) (body : json) : M response :=
  db ← readDB;
  now ← Date_now;
  created_at ← lift (toISOString ErrorObj);
  let item := JObj (newItem now body created_at) in
  let db' := match db !! resource with
             | Some (JArr xs) => <[resource := JArr (xs ++ [item])]> db
             | _ => <[resource := item]> db
             end in
  _ ← writeDB db';
  mret (res_json (Some item)).

(** [app.put(`/api/${resource}/:id`, ...)] *)
Definition put_resource_id (resource id : string) (body : json) : M response :=
  db ← readDB;
  xs ← lift (as_array (db !! resource));
  index ← lift (findIndex (id_is id) xs);
  match index with
  | Some i =>
      let xs' := <[i := JObj (spread2 (xs !! i) (Some body))]> xs in
      _ ← writeDB (<[resource := JArr xs']> db);
      mret (res_json (xs' !! i))
  | None => mret (res_status_json 404 (obj [("error", JStr "Not found")]))
  end.

(** [app.delete(`/api/${resource}/:id`, ...)] *)
Definition delete_resource_id (resource id : string) : M response :=
  db ← readDB;
  xs ← lift (as_array (db !! resource));
  kept ← lift (filter_cb (id_is_not id) xs);
  _ ← writeDB (<[resource := JArr kept]> db);
  mret (res_json (Some (obj [("success", JBool true)]))).

(** [app.get("/api/hero", ...)] *)
Definition get_hero : M response :=
  db ← readDB;
  mret (res_json (db !! "hero")).

(** [app.put("/api/hero", ...)] *)
Definition put_hero (body : json) : M response :=
  db ← readDB;
  let hero := JObj (spread2 (db !! "hero") (Some body)) in
  _ ← writeDB (<["hero" := hero]> db);
  mret (res_json (Some hero)).

(** The template literals of [mailOptions]: the subject interpolates [name]
    and [company || "N/A"], the html [name], [phone || "N/A"], [email],
    [company || "N/A"] and [message]. *)
Definition mailOptions (name phone email company message : value) : result mail :=
  let phone' := or_else phone (JStr "N/A") in
  let company' := or_else company (JStr "N/A") in
  if forallb interpolates
       [name; Some company'; name; Some phone'; email; Some company'; message]
  then Ok (Mail name phone' email company' message)
  else Throw TypeError.

(** The record that the contact form stores. *)
Definition newMessage (now : Z) (name phone email company message : value)
    (created_at : string) : gmap string json :=
  literal [("id", Some (JStr (pretty now)));
           ("name", name);
           ("phone", Some (or_else phone (JStr "N/A")));
           ("email", email);
           ("company", Some (or_else company (JStr "N/A")));
           ("message", message);
           ("created_at", Some (JStr created_at))].

(** [app.post("/api/contact", ...)] *)
Definition post_contact (body : json) : M response :=
  try_catch
    (name ← lift (field (Some body) "name");
     phone ← lift (field (Some body) "phone");
     email ← lift (field (Some body) "email");
     company ← lift (field (Some body) "company");
     message ← lift (field (Some body) "message");
     db ← readDB;
     now ← Date_now;
     date ← Date_now;
     created_at ← lift (toISOString (DateObj date));
     let record := JObj (newMessage now name phone email company message created_at) in
     messages ← lift (as_array (db !! "messages"));
     _ ← writeDB (<["messages" := JArr (messages ++ [record])]> db);
     _ ← effect (EvLog MessageStored);
     options ← lift (mailOptions name phone email company message);
     _ ← sendMail options
           (λ delivered, if delivered : bool then effect (EvLog EmailSent)
                         else effect (EvError EmailFailed));
     mret (res_status_json 200
             (obj [("success", JBool true); ("message", JStr "Message received")])))
    (λ error,
       _ ← effect (EvError SubmissionFailed);
       mret (res_status_json 500
               (obj [("success", JBool false); ("message", JStr "Submission failed")]))).

(** ** Reading the model *)

(** The record [item] carries the identifier [id]. *)
Definition has_id (id : string) (item : json) : bool :=
  match item with
  | JObj props =>
      match props !! "id" with
      | Some (JStr s) => String.eqb s id
      | _ => false
      end
  | _ => false
  end.

(** The value that the request body supplies under the name [k]. *)
Definition supplied (body : json) (k : string) : value :=
  match body with
  | JObj props => props !! k
  | _ => None
  end.

(** The records of a collection that a [DELETE] of [id] leaves. *)
Definition without (id : string) (xs : list json) : list json :=
  filter (λ x, has_id id x = false) xs.

(** A collection whose elements can all be asked for their [id]: reading a
    property of [null] throws. *)
Definition no_null (xs : list json) : bool :=
  forallb (λ x, match x with JNull => false | _ => true end) xs.

(** The events a handler added to the trace. *)
Definition events (w w' : World) : list event :=
  drop (length (trace w)) (trace w').

Definition is_read (e : event) : bool :=
  match e with EvRead => true | _ => false end.

Definition is_write (e : event) : bool :=
  match e with EvWrite _ => true | _ => false end.

Definition is_send (e : event) : bool :=
  match e with EvSendMail _ => true | _ => false end.

Definition reads (evs : list event) : nat :=
  length (List.filter is_read evs).

Definition writes (evs : list event) : nat :=
  length (List.filter is_write evs).

Definition sends (evs : list event) : nat :=
  length (List.filter is_send evs).

(** Every top-level field but [name] is what it was. *)
Definition frame (name : string) (db db' : gmap string json) : Prop :=
  ∀ k, k ≠ name → db' !! k = db !! k.

(** One read of the document, one write of it, and only the field [name]
    differs. *)
Definition read_once_wrote_once (name : string) (db : gmap string json)
    (w w' : World) : Prop :=
  reads (events w w') = 1%nat ∧ writes (events w w') = 1%nat ∧
  ∃ db', disk w' = Doc db' ∧ frame name db db'.

(** None of the values that the mail template interpolates throws on its
    conversion to a string. *)
Definition contact_renders (body : json) : bool :=
  forallb (λ k, interpolates (supplied body k))
    ["name"; "phone"; "email"; "company"; "message"].

(** What a later [GET /api/{resource}] answers. *)
Definition listing (resource : string) (w : World) : response :=
  (express (get_resource resource) w).1.

Definition success : json := obj [("success", JBool true)].
Definition not_found : json := obj [("error", JStr "Not found")].
Definition invalid_credentials : json :=
  obj [("success", JBool false); ("message", JStr "Invalid credentials")].
Definition message_received : json :=
  obj [("success", JBool true); ("message", JStr "Message received")].
Definition submission_failed : json :=
  obj [("success", JBool false); ("message", JStr "Submission failed")].

(** The shape [YYYY-MM-DDTHH:mm:ss.sssZ] of a timestamp: 24 characters,
    digits but for the separators. *)
Definition is_digit (c : Ascii.ascii) : bool :=
  (48 <=? Ascii.nat_of_ascii c)%nat && (Ascii.nat_of_ascii c <=? 57)%nat.

Definition is_digits (s : string) : bool :=
  forallb is_digit (String.list_ascii_of_string s).

Definition iso_shaped (s : string) : bool :=
  match String.list_ascii_of_string s with
  | [y1; y2; y3; y4; s1; m1; m2; s2; d1; d2; s3; h1; h2; s4; n1; n2; s5; c1; c2; s6;
     f1; f2; f3; z] =>
      forallb is_digit [y1; y2; y3; y4; m1; m2; d1; d2; h1; h2; n1; n2; c1; c2; f1; f2; f3]
      && String.eqb (String.string_of_list_ascii [s1; s2; s3; s4; s5; s6; z]) "--T::.Z"
  | _ => false
  end.

(** [f] holds on the [n] integers from [z] on. *)
Fixpoint all_from (f : Z → bool) (n : nat) (z : Z) : bool :=
  match n with
  | O => true
  | S k => if f z then all_from f k (z + 1) else false
  end.

(** [pad] gives [width] digits. *)
Definition padded (width : nat) (n : Z) : bool :=
  Nat.eqb (String.length (pad width n)) width && is_digits (pad width n).

(** The civil date of the day [doe] of the 400-year era that starts on
    0000-03-01: a month, a day of the month, and a year of the era, which
    is at least 370 from 1970-01-01 on and at most 399 up to the last
    31 December. *)
Definition day_ok (doe : Z) : bool :=
  let '(y, m, d) := civil_from_days (doe - 719468) in
  (0 <=? y) && (y <=? 400) && (1 <=? m) && (m <=? 12) && (1 <=? d) && (d <=? 31)
  && ((doe <? 135080) || (370 <=? y)) && ((146036 <? doe) || (y <=? 399)).

(** ** Sample data *)

Module Sample.


Definition hello : json :=
  obj [("id", JStr "1"); ("title", JStr "Hello");
       ("created_at", JStr "2024-01-01T00:00:00.000Z")].

Definition world_ : json :=
  obj [("id", JStr "2"); ("title", JStr "World");
       ("created_at", JStr "2024-01-02T00:00:00.000Z")].

Definition db : gmap string json :=
  list_to_map
    [("admin", obj [("username", JStr "admin"); ("password", JStr "Secret1")]);
     ("hero", obj [("title", JStr "Welcome"); ("subtitle", JStr "We build")]);
     ("posts", JArr [hello; world_]);
     ("services", JArr []);
     ("metrics", JArr []);
     ("process", JArr []);
     ("messages", JArr [])].

Definition w : World :=
  MkWorld (Doc db) true true (λ n, 1700000000000 + Z.of_nat n) 0 [].

End Sample.

(** ** Basic facts *)

Lemma events_emitted w w' evs :
  trace w' = trace w ++ evs → events w w' = evs.
Proof. intros H. unfold events. rewrite H. by rewrite drop_app_length. Qed.

Lemma has_id_true id item :
  has_id id item = true ↔ ∃ props, item = JObj props ∧ props !! "id" = Some (JStr id).
Proof.
  split.
  - destruct item as [| | | | |props]; try done. simpl.
    destruct (props !! "id") as [[| | |s| |]|] eqn:Hid; try done.
    intros ->%String.eqb_eq. by exists props.
  - intros (props & -> & Hid). simpl. rewrite Hid. apply String.eqb_refl.
Qed.

Lemma events_read_write w db :
  events w (store db (emit (EvWrite db) (emit EvRead w))) = [EvRead; EvWrite db].
Proof. apply events_emitted. cbn. by rewrite <- app_assoc. Qed.

Lemma id_is_has_id id item :
  item ≠ JNull → id_is id item = Ok (has_id id item).
Proof.
  intros Hnull. unfold id_is, has_id, field.
  destruct item as [| | | | |props]; cbn; [done..|].
  by destruct (props !! "id") as [[| | | | |]|].
Qed.

Lemma id_is_not_has_id id item :
  item ≠ JNull → id_is_not id item = Ok (negb (has_id id item)).
Proof. intros Hnull. unfold id_is_not. by rewrite id_is_has_id. Qed.

Lemma no_null_cons x xs :
  no_null (x :: xs) = true ↔ x ≠ JNull ∧ no_null xs = true.
Proof.
  unfold no_null. simpl. rewrite andb_true_iff.
  by destruct x; intuition.
Qed.

Lemma findIndex_missing id xs :
  no_null xs = true → existsb (has_id id) xs = false →
  findIndex (id_is id) xs = Ok None.
Proof.
  induction xs as [|x xs IH]; [done|].
  rewrite no_null_cons. intros [Hx Hxs] [Hnot Hrest]%orb_false_iff.
  cbn [findIndex]. rewrite id_is_has_id, Hnot by done. cbn.
  by rewrite (IH Hxs Hrest).
Qed.

Lemma findIndex_found id xs :
  no_null xs = true → existsb (has_id id) xs = true →
  ∃ i x, findIndex (id_is id) xs = Ok (Some i) ∧
         xs !! i = Some x ∧ has_id id x = true ∧
         ∀ j y, xs !! j = Some y → (j < i)%nat → has_id id y = false.
Proof.
  induction xs as [|x xs IH]; [done|].
  rewrite no_null_cons. intros [Hx Hxs] Hex.
  cbn [findIndex]. rewrite id_is_has_id by done. cbn.
  destruct (has_id id x) eqn:Hhas.
  - exists 0%nat, x. split_and!; [done..|]. intros; lia.
  - cbn in Hex. rewrite Hhas in Hex. cbn in Hex.
    destruct (IH Hxs Hex) as (i & y & -> & Hi & Hy & Hfirst). cbn.
    exists (S i), y. split_and!; [done..|].
    intros [|j] z Hj Hlt; cbn in Hj.
    + by injection Hj as <-.
    + apply (Hfirst j z Hj). lia.
Qed.

Lemma filter_cb_without id xs :
  no_null xs = true → filter_cb (id_is_not id) xs = Ok (without id xs).
Proof.
  unfold without. induction xs as [|x xs IH]; [done|].
  rewrite no_null_cons. intros [Hx Hxs].
  cbn [filter_cb]. rewrite id_is_not_has_id, (IH Hxs) by done.
  rewrite filter_cons. by destruct (has_id id x).
Qed.

Lemma no_null_without id xs : no_null xs = true → no_null (without id xs) = true.
Proof.
  unfold without. induction xs as [|x xs IH]; [done|].
  rewrite no_null_cons. intros [Hx Hxs]. rewrite filter_cons.
  case_decide; [apply no_null_cons|]; auto.
Qed.

Lemma without_twice id xs : without id (without id xs) = without id xs.
Proof.
  unfold without. induction xs as [|x xs IH]; [done|].
  rewrite filter_cons. case_decide as Hx; [|done].
  rewrite filter_cons. rewrite decide_True by done. by rewrite IH.
Qed.

(** ** Running a handler *)

Lemma bind_run {A B : Type} (m : M A) (f : A → M B) (w : World) :
  (m ≫= f) w = match m w with
               | (Ok a, w') => f a w'
               | (Throw e, w') => (Throw e, w')
               end.
Proof. reflexivity. Qed.

Lemma readDB_run w db : disk w = Doc db → readDB w = (Ok db, emit EvRead w).
Proof. unfold readDB. by intros ->. Qed.

Lemma writeDB_run w db :
  writable w = true → writeDB db w = (Ok tt, store db (emit (EvWrite db) w)).
Proof. unfold writeDB. by intros ->. Qed.

Lemma lift_run {A : Type} (r : result A) (w : World) : lift r w = (r, w).
Proof. reflexivity. Qed.

Lemma ret_run {A : Type} (a : A) (w : World) : mret (M := M) a w = (Ok a, w).
Proof. reflexivity. Qed.

Lemma effect_run e w : effect e w = (Ok tt, emit e w).
Proof. reflexivity. Qed.

Lemma Date_now_run w : Date_now w = (Ok (clock w (ticks w)), tick w).
Proof. reflexivity. Qed.

Lemma sendMail_run m callback w :
  sendMail m callback w = callback (smtp_up w) (emit (EvSendMail m) w).
Proof. reflexivity. Qed.

Ltac run :=
  repeat first
    [ rewrite bind_run
    | rewrite lift_run
    | rewrite ret_run
    | rewrite effect_run
    | rewrite Date_now_run
    | rewrite sendMail_run
    | erewrite readDB_run by eassumption
    | rewrite writeDB_run by assumption ];
  cbn [fst snd].

Lemma listing_disk resource w w' : disk w' = disk w → listing resource w' = listing resource w.
Proof.
  unfold listing, express, get_resource, readDB. rewrite !bind_run.
  intros ->. by destruct (disk w).
Qed.

(** ** Update *)

(** C3.  An update whose id matches no record of the collection answers
    404 Not found and writes nothing: the document on disk, and with it what
    a later list of the resource returns, is what it was. *)
Theorem put_unknown_id_not_found resource id body w db xs :
  disk w = Doc db →
  db !! resource = Some (JArr xs) →
  no_null xs = true →
  existsb (has_id id) xs = false →
  ∃ w', express (put_resource_id resource id body) w = (Response 404 (Some not_found), w') ∧
        disk w' = disk w ∧
        events w w' = [EvRead] ∧
        writes (events w w') = 0%nat ∧
        listing resource w' = listing resource w.
Proof.
  intros Hdisk Hres Hnull Hnone. exists (emit EvRead w).
  assert (events w (emit EvRead w) = [EvRead]) as Hev by (by apply events_emitted).
  split_and!; [|done|done|by rewrite Hev|by apply listing_disk].
  unfold express, put_resource_id. run.
  rewrite Hres. cbn [as_array]. run.
  rewrite (findIndex_missing id xs Hnull Hnone). by run.
Qed.

Lemma put_unknown_id_not_found_witness :
  ∃ w', express (put_resource_id "posts" "3" (obj [("title", JStr "Updated")])) Sample.w
          = (Response 404 (Some not_found), w') ∧
        disk w' = disk Sample.w ∧
        events Sample.w w' = [EvRead] ∧
        writes (events Sample.w w') = 0%nat ∧
        listing "posts" w' = listing "posts" Sample.w.
Proof.
  apply (put_unknown_id_not_found "posts" "3" _ Sample.w Sample.db
           [Sample.hello; Sample.world_]); reflexivity.
Defined.

Lemma put_resource_id_run resource id body w db xs i :
  disk w = Doc db → writable w = true →
  db !! resource = Some (JArr xs) →
  findIndex (id_is id) xs = Ok (Some i) →
  let xs' := <[i := JObj (spread2 (xs !! i) (Some body))]> xs in
  let db' := <[resource := JArr xs']> db in
  put_resource_id resource id body w
  = (Ok (res_json (xs' !! i)), store db' (emit (EvWrite db') (emit EvRead w))).
Proof.
  intros Hdisk Hwr Hres Hfind. unfold put_resource_id. run.
  rewrite Hres. cbn [as_array]. run. rewrite Hfind. by run.
Qed.



(** What the sample update answers, computed. *)
Example put_sample :
  (express (put_resource_id "posts" "2" (obj [("title", JStr "Updated")])) Sample.w).1
  = Response 200 (Some (obj [("id", JStr "2"); ("title", JStr "Updated");
                             ("created_at", JStr "2024-01-02T00:00:00.000Z")])).
Proof. reflexivity. Qed.

(** ** Delete *)

Lemma delete_resource_id_run resource id w db xs :
  disk w = Doc db → writable w = true →
  db !! resource = Some (JArr xs) → no_null xs = true →
  let db' := <[resource := JArr (without id xs)]> db in
  delete_resource_id resource id w
  = (Ok (Response 200 (Some success)), store db' (emit (EvWrite db') (emit EvRead w))).
Proof.
  intros Hdisk Hwr Hres Hnull. unfold delete_resource_id. run.
  rewrite Hres. cbn [as_array]. run.
  rewrite (filter_cb_without id xs Hnull). by run.
Qed.

(** C4.  A delete leaves in the collection exactly the records whose id is
    not the given one, in the order they had, and answers success whether
    or not a record matched; a second delete of the same id answers success
    again and leaves the document as the first one left it. *)
Theorem delete_removes_by_id resource id w db xs :
  disk w = Doc db → writable w = true →
  db !! resource = Some (JArr xs) →
  no_null xs = true →
  ∃ w1 w2,
    express (delete_resource_id resource id) w = (Response 200 (Some success), w1) ∧
    disk w1 = Doc (<[resource := JArr (without id xs)]> db) ∧
    (∀ x, x ∈ without id xs ↔ x ∈ xs ∧ has_id id x = false) ∧
    without id xs `sublist_of` xs ∧
    (existsb (has_id id) xs = false → disk w1 = disk w) ∧
    express (delete_resource_id resource id) w1 = (Response 200 (Some success), w2) ∧
    disk w2 = disk w1.
Proof.
  intros Hdisk Hwr Hres Hnull.
  set (db1 := <[resource := JArr (without id xs)]> db).
  set (w1 := store db1 (emit (EvWrite db1) (emit EvRead w))).
  exists w1, (store db1 (emit (EvWrite db1) (emit EvRead w1))).
  split_and!.
  - unfold express. by rewrite (delete_resource_id_run _ _ _ _ _ Hdisk Hwr Hres Hnull).
  - done.
  - intros x. unfold without. rewrite list_elem_of_filter. tauto.
  - apply sublist_filter.
  - intros Hnone. cbn. rewrite Hdisk. f_equal. unfold db1.
    assert (without id xs = xs) as ->; [|by apply insert_id].
    unfold without. clear -Hnone. induction xs as [|x xs IH]; [done|].
    cbn in Hnone. apply orb_false_iff in Hnone as [Hx Hxs].
    rewrite filter_cons, decide_True by done. by rewrite IH.
  - unfold express.
    rewrite (delete_resource_id_run resource id w1 db1 (without id xs));
      [|done|done|apply lookup_insert_eq|by apply no_null_without].
    cbn zeta. rewrite without_twice. unfold db1. by rewrite insert_insert_eq.
  - done.
Qed.

Lemma delete_removes_by_id_witness :
  ∃ w1 w2,
    express (delete_resource_id "posts" "1") Sample.w = (Response 200 (Some success), w1) ∧
    disk w1 = Doc (<["posts" := JArr (without "1" [Sample.hello; Sample.world_])]> Sample.db) ∧
    (∀ x, x ∈ without "1" [Sample.hello; Sample.world_]
          ↔ x ∈ [Sample.hello; Sample.world_] ∧ has_id "1" x = false) ∧
    without "1" [Sample.hello; Sample.world_] `sublist_of` [Sample.hello; Sample.world_] ∧
    (existsb (has_id "1") [Sample.hello; Sample.world_] = false → disk w1 = disk Sample.w) ∧
    express (delete_resource_id "posts" "1") w1 = (Response 200 (Some success), w2) ∧
    disk w2 = disk w1.
Proof.
  apply (delete_removes_by_id "posts" "1" Sample.w Sample.db); reflexivity.
Defined.

Example delete_sample :
  without "1" [Sample.hello; Sample.world_] = [Sample.world_]
  ∧ without "3" [Sample.hello; Sample.world_] = [Sample.hello; Sample.world_].
Proof. split; reflexivity. Qed.

(** ** The hero singleton *)

(** A string is spread by code unit: one property for a character of the
    basic plane, whatever its length in UTF-8, two for a character beyond
    it. *)
Example code_units_samples :
  code_units "a€b" = ["a"; "€"; "b"]
  ∧ own_props (Some (JStr "€")) = {["0" := JStr "€"]}
  ∧ code_units "😀" = [surrogate 55357; surrogate 56832].
Proof. repeat split; reflexivity. Qed.

(** C7.  An update of the hero merges the body over the stored hero, writes
    the document back and answers the whole merged object.  For a body that
    is an object over a stored hero that is an object, the answer holds
    every field of the body with the body's value and every other field of
    the stored hero with the stored value: it is the union of the two, the
    body first, never the fields of the body alone. *)
Theorem put_hero_returns_merged body w db :
  disk w = Doc db → writable w = true →
  ∃ merged w',
    express (put_hero body) w = (Response 200 (Some (JObj merged)), w') ∧
    disk w' = Doc (<["hero" := JObj merged]> db) ∧
    events w w' = [EvRead; EvWrite (<["hero" := JObj merged]> db)] ∧
    (∀ k v, own_props (Some body) !! k = Some v → merged !! k = Some v) ∧
    (∀ k, own_props (Some body) !! k = None → merged !! k = own_props (db !! "hero") !! k) ∧
    dom merged = dom (own_props (Some body)) ∪ dom (own_props (db !! "hero")) ∧
    (∀ fields, body = JObj fields →
       (∀ k v, fields !! k = Some v → merged !! k = Some v) ∧
       (∀ hero, db !! "hero" = Some (JObj hero) →
          merged = fields ∪ hero ∧
          (∀ k, fields !! k = None → merged !! k = hero !! k) ∧
          (∀ k, is_Some (hero !! k) → is_Some (merged !! k))) ∧
       (db !! "hero" = None → merged = fields)).
Proof.
  intros Hdisk Hwr.
  exists (spread2 (db !! "hero") (Some body)). eexists. split_and!.
  - unfold express, put_hero. by run.
  - done.
  - apply events_read_write.
  - intros k v Hk. unfold spread2. by apply lookup_union_Some_l.
  - intros k Hk. unfold spread2. by rewrite lookup_union_r.
  - unfold spread2. apply dom_union_L.
  - intros fields ->. unfold spread2. cbn [own_props]. split_and!.
    + intros k v Hk. by apply lookup_union_Some_l.
    + intros hero ->. cbn [own_props]. split_and!; [done| |].
      * intros k Hk. by rewrite lookup_union_r.
      * intros k [v Hv]. destruct (fields !! k) as [v'|] eqn:Hk.
        -- exists v'. by apply lookup_union_Some_l.
        -- exists v. by rewrite lookup_union_r.
    + intros ->. cbn [own_props]. apply (right_id_L ∅ (∪)).
Qed.

Lemma put_hero_returns_merged_witness :
  ∃ merged w',
    express (put_hero (obj [("title", JStr "New")])) Sample.w
    = (Response 200 (Some (JObj merged)), w') ∧
    disk w' = Doc (<["hero" := JObj merged]> Sample.db) ∧
    merged !! "title" = Some (JStr "New") ∧
    merged !! "subtitle" = Some (JStr "We build") ∧
    merged = list_to_map [("title", JStr "New"); ("subtitle", JStr "We build")].
Proof.
  destruct (put_hero_returns_merged (obj [("title", JStr "New")]) Sample.w Sample.db)
    as (merged & w' & Hanswer & Hdisk & _ & _ & _ & _ & Hobject); [reflexivity..|].
  destruct (Hobject (list_to_map [("title", JStr "New")]) eq_refl) as (Hbody & Hhero & _).
  destruct (Hhero (list_to_map [("title", JStr "Welcome"); ("subtitle", JStr "We build")])
              eq_refl) as (Hunion & Hkeep & _).
  exists merged, w'. split_and!.
  - exact Hanswer.
  - exact Hdisk.
  - apply Hbody. reflexivity.
  - rewrite Hkeep; reflexivity.
  - rewrite Hunion. reflexivity.
Defined.

Example put_hero_sample :
  (express (put_hero (obj [("title", JStr "New")])) Sample.w).1
  = Response 200 (Some (obj [("title", JStr "New"); ("subtitle", JStr "We build")])).
Proof. reflexivity. Qed.

(** ** Login *)

Lemma field_supplied body k : body ≠ JNull → field (Some body) k = Ok (supplied body k).
Proof. by destruct body. Qed.

Lemma strict_eq_string s v : strict_eq (Some (JStr s)) v = true ↔ v = Some (JStr s).
Proof.
  split; [|intros ->; apply String.eqb_refl].
  destruct v as [[| | |s'| |]|]; try done. by intros ->%String.eqb_eq.
Qed.

(** C8.  With the admin's username and password stored as strings, a login
    answers success exactly when the body supplies these two strings, and
    401 with [success: false] for every other body. *)
Theorem login_exact_match body w db admin u p :
  body ≠ JNull →
  disk w = Doc db →
  db !! "admin" = Some (JObj admin) →
  admin !! "username" = Some (JStr u) →
  admin !! "password" = Some (JStr p) →
  let matches := supplied body "username" = Some (JStr u) ∧
                 supplied body "password" = Some (JStr p) in
  let r := (express (post_login body) w).1 in
  (matches → r = Response 200 (Some success)) ∧
  (¬ matches → r = Response 401 (Some invalid_credentials)) ∧
  (r = Response 200 (Some success) ↔ matches).
Proof.
  intros Hbody Hdisk Hadmin Hu Hp matches r.
  assert (r = if strict_eq (Some (JStr u)) (supplied body "username")
                 && strict_eq (Some (JStr p)) (supplied body "password")
              then Response 200 (Some success)
              else Response 401 (Some invalid_credentials)) as Hr.
  { unfold r, express, post_login. run. rewrite !field_supplied by done. run.
    rewrite Hadmin. cbn [field]. rewrite Hu, Hp. cbn [mbind result_bind].
    destruct (strict_eq (Some (JStr u)) (supplied body "username")); [|done].
    by destruct (strict_eq (Some (JStr p)) (supplied body "password")). }
  assert (matches ↔ strict_eq (Some (JStr u)) (supplied body "username")
                    && strict_eq (Some (JStr p)) (supplied body "password") = true)
    as Hiff.
  { unfold matches. by rewrite andb_true_iff, !strict_eq_string. }
  rewrite Hr, Hiff.
  destruct (strict_eq (Some (JStr u)) (supplied body "username")
            && strict_eq (Some (JStr p)) (supplied body "password"));
    split_and!; try done; intros []; done.
Qed.

Lemma login_exact_match_witness :
  let body := obj [("username", JStr "admin"); ("password", JStr "Secret1")] in
  let matches := supplied body "username" = Some (JStr "admin") ∧
                 supplied body "password" = Some (JStr "Secret1") in
  let r := (express (post_login body) Sample.w).1 in
  (matches → r = Response 200 (Some success)) ∧
  (¬ matches → r = Response 401 (Some invalid_credentials)) ∧
  (r = Response 200 (Some success) ↔ matches).
Proof.
  apply (login_exact_match
           (obj [("username", JStr "admin"); ("password", JStr "Secret1")])
           Sample.w Sample.db
           (list_to_map [("username", JStr "admin"); ("password", JStr "Secret1")])
           "admin" "Secret1"); [discriminate|reflexivity..].
Defined.

(** The comparison is by character: another case is another password. *)
Example login_samples :
  (express (post_login (obj [("username", JStr "admin"); ("password", JStr "Secret1")]))
     Sample.w).1 = Response 200 (Some success)
  ∧ (express (post_login (obj [("username", JStr "admin"); ("password", JStr "secret1")]))
       Sample.w).1 = Response 401 (Some invalid_credentials)
  ∧ (express (post_login (obj [("username", JStr "Admin"); ("password", JStr "Secret1")]))
       Sample.w).1 = Response 401 (Some invalid_credentials)
  ∧ (express (post_login (obj [("password", JStr "Secret1")]))
       Sample.w).1 = Response 401 (Some invalid_credentials).
Proof. repeat split; reflexivity. Qed.

(** ** The contact form *)

Example Date_toISOString_samples :
  Date_toISOString 0 = "1970-01-01T00:00:00.000Z"
  ∧ Date_toISOString (-1) = "1969-12-31T23:59:59.999Z"
  ∧ Date_toISOString 951782400000 = "2000-02-29T00:00:00.000Z"
  ∧ Date_toISOString 1700000000000 = "2023-11-14T22:13:20.000Z"
  ∧ Date_toISOString 253402300800000 = "+010000-01-01T00:00:00.000Z".
Proof. repeat split; reflexivity. Qed.

Lemma or_else_falsy v d : truthy v = false → or_else v d = d.
Proof. unfold or_else. destruct v; [|done]. by intros ->. Qed.

Lemma or_else_truthy v d : truthy v = true → Some (or_else v d) = v.
Proof. unfold or_else. destruct v; [|done]. by intros ->. Qed.

Lemma interpolates_or_else v :
  interpolates (Some (or_else v (JStr "N/A"))) = interpolates v.
Proof.
  unfold or_else. destruct v as [j|]; [|done].
  destruct (truthy (Some j)) eqn:Htruthy; [done|].
  by destruct j.
Qed.

Lemma mailOptions_renders body :
  contact_renders body = true →
  ∃ options,
    mailOptions (supplied body "name") (supplied body "phone") (supplied body "email")
      (supplied body "company") (supplied body "message") = Ok options.
Proof.
  unfold contact_renders, mailOptions. cbn [forallb].
  rewrite !interpolates_or_else, !andb_true_iff.
  intros (-> & -> & -> & -> & -> & _). cbn. eauto.
Qed.

(** A form whose fields are text, or left out, can be put into the mail. *)
Lemma contact_renders_text body :
  (∀ k, supplied body k = None ∨ ∃ s, supplied body k = Some (JStr s)) →
  contact_renders body = true.
Proof.
  intros Htext. unfold contact_renders. apply forallb_forall. intros k _.
  by destruct (Htext k) as [->|[s ->]].
Qed.

Lemma newMessage_fields now name phone email company message created_at :
  let record := newMessage now name phone email company message created_at in
  record !! "id" = Some (JStr (pretty now)) ∧
  record !! "created_at" = Some (JStr created_at) ∧
  record !! "phone" = Some (or_else phone (JStr "N/A")) ∧
  record !! "company" = Some (or_else company (JStr "N/A")) ∧
  record !! "name" = name ∧ record !! "email" = email ∧ record !! "message" = message.
Proof.
  unfold newMessage, literal. cbn [foldl fst snd].
  destruct name, email, message; by simplify_map_eq.
Qed.

Ltac events_calc :=
  unfold events; cbn [trace emit store tick with_smtp];
  rewrite <- ?app_assoc; rewrite drop_app_length; cbn.

(** The handler when the record can be stored. *)
Lemma post_contact_stored body w db ms :
  body ≠ JNull → disk w = Doc db → writable w = true →
  db !! "messages" = Some (JArr ms) →
  let name := supplied body "name" in
  let phone := supplied body "phone" in
  let email := supplied body "email" in
  let company := supplied body "company" in
  let message := supplied body "message" in
  let record := newMessage (clock w (ticks w)) name phone email company message
                  (Date_toISOString (clock w (S (ticks w)))) in
  let db' := <["messages" := JArr (ms ++ [JObj record])]> db in
  let w1 := emit (EvLog MessageStored)
              (store db' (emit (EvWrite db') (tick (tick (emit EvRead w))))) in
  post_contact body w =
  match mailOptions name phone email company message with
  | Ok options =>
      (Ok (Response 200 (Some message_received)),
       emit (if smtp_up w then EvLog EmailSent else EvError EmailFailed)
         (emit (EvSendMail options) w1))
  | Throw _ =>
      (Ok (Response 500 (Some submission_failed)), emit (EvError SubmissionFailed) w1)
  end.
Proof.
  intros Hbody Hdisk Hwr Hms. cbn zeta.
  unfold post_contact, try_catch. run. rewrite !field_supplied by done. run.
  cbn [toISOString]. run. rewrite Hms. cbn [as_array]. run.
  cbn [clock ticks tick emit].
  destruct (mailOptions _ _ _ _ _) as [options|e]; run; [|done].
  cbn [smtp_up store emit tick].
  destruct (smtp_up w); by run.
Qed.

(** The handler when the record cannot be stored: the body has no fields to
    read, the document cannot be read, it holds no [messages] array, or it
    cannot be written. *)
Lemma post_contact_not_stored body w :
  body = JNull ∨ disk w = NoFile ∨ disk w = NotJSON ∨
  (∃ db, disk w = Doc db ∧
         (as_array (db !! "messages") = Throw TypeError ∨ writable w = false)) →
  ∃ w', post_contact body w = (Ok (Response 500 (Some submission_failed)), w') ∧
        disk w' = disk w ∧
        writes (events w w') = 0%nat ∧
        sends (events w w') = 0%nat.
Proof.
  intros Hcase.
  assert (body = JNull ∨ body ≠ JNull) as [->|Hbody] by (destruct body; auto).
  { eexists. split; [reflexivity|]. split_and!; [done|by events_calc..]. }
  destruct Hcase as [?|Hcase]; [done|].
  unfold post_contact, try_catch. run. rewrite !field_supplied by done. run.
  destruct Hcase as [Hdisk|[Hdisk|(db & Hdisk & Hcase)]].
  - unfold readDB. rewrite Hdisk. cbn.
    eexists. split; [reflexivity|]. split_and!; [done|by events_calc..].
  - unfold readDB. rewrite Hdisk. cbn.
    eexists. split; [reflexivity|]. split_and!; [done|by events_calc..].
  - run. cbn [toISOString]. run.
    destruct (as_array (db !! "messages")) as [ms|e] eqn:Harr.
    + destruct Hcase as [?|Hwr]; [done|]. run.
      unfold writeDB. cbn [writable tick emit]. rewrite Hwr. cbn.
      eexists. split; [reflexivity|]. split_and!; [done|by events_calc..].
    + cbn.
      eexists. split; [reflexivity|]. split_and!; [done|by events_calc..].
Qed.

Lemma post_contact_cases body w :
  (∃ db ms, body ≠ JNull ∧ disk w = Doc db ∧ writable w = true ∧
            db !! "messages" = Some (JArr ms)) ∨
  (body = JNull ∨ disk w = NoFile ∨ disk w = NotJSON ∨
   (∃ db, disk w = Doc db ∧
          (as_array (db !! "messages") = Throw TypeError ∨ writable w = false))).
Proof.
  assert (body = JNull ∨ body ≠ JNull) as [->|Hbody] by (destruct body; auto);
    [by auto|].
  destruct (disk w) as [| |db] eqn:Hdisk; [by auto..|].
  destruct (writable w) eqn:Hwr; [|by eauto 10].
  destruct (db !! "messages") as [[| | | |ms|]|] eqn:Hms;
    try (right; do 3 right; exists db; rewrite Hms; by auto).
  left. by exists db, ms.
Qed.




Example contact_sample :
  disk (post_contact (obj [("name", JStr "Ann"); ("phone", JStr ""); ("message", JStr "Hello");
                           ("company", JStr "Acme")]) Sample.w).2
  = Doc (<["messages" :=
             JArr [obj [("id", JStr "1700000000000"); ("name", JStr "Ann");
                        ("phone", JStr "N/A"); ("company", JStr "Acme");
                        ("message", JStr "Hello");
                        ("created_at", JStr "2023-11-14T22:13:20.001Z")]]]> Sample.db).
Proof. reflexivity. Qed.

(** C5 at [POST /api/contact {"name": {"toString": null}, "message":
    "Hello"}]: the record is written, then the mail template throws on the
    conversion of [name] to a string, inside the [try]: the answer is the
    500 failure although the record is stored, and no mail is handed to the
    transport. *)
Theorem contact_persists_then_answers_failure :
  let body := obj [("name", obj [("toString", JNull)]); ("message", JStr "Hello")] in
  let after := (post_contact body Sample.w).2 in
  (post_contact body Sample.w).1 = Ok (Response 500 (Some submission_failed)) ∧
  writes (events Sample.w after) = 1%nat ∧
  sends (events Sample.w after) = 0%nat ∧
  payload (listing "messages" after)
  = Some (JArr [obj [("id", JStr "1700000000000"); ("name", obj [("toString", JNull)]);
                     ("phone", JStr "N/A"); ("company", JStr "N/A");
                     ("message", JStr "Hello");
                     ("created_at", JStr "2023-11-14T22:13:20.001Z")]]).
Proof. repeat split; reflexivity. Qed.

(** X22.  The answer of the contact form, and what it stores, do not depend
    on whether the notification is delivered.  When the record was written
    and the values of the body can be put into the mail, the answer is the
    success response and the mail is handed to the transport once; when it
    was not written, the answer is the generic failure and no mail is
    attempted. *)
Theorem contact_response_ignores_mail body w :
  let r := (post_contact body w).1 in
  let w' := (post_contact body w).2 in
  (∀ up, (post_contact body (with_smtp up w)).1 = r ∧
         disk (post_contact body (with_smtp up w)).2 = disk w') ∧
  (writes (events w w') = 1%nat → contact_renders body = true →
   r = Ok (Response 200 (Some message_received)) ∧ sends (events w w') = 1%nat) ∧
  (writes (events w w') ≠ 1%nat →
   r = Ok (Response 500 (Some submission_failed)) ∧ sends (events w w') = 0%nat ∧
   disk w' = disk w).
Proof.
  cbn zeta.
  destruct (post_contact_cases body w) as [(db & ms & Hbody & Hdisk & Hwr & Hms)|Hfail].
  - split_and!.
    + intros up.
      rewrite (post_contact_stored body (with_smtp up w) db ms),
              (post_contact_stored body w db ms) by done.
      cbn zeta. cbn [clock ticks with_smtp].
      by destruct (mailOptions _ _ _ _ _).
    + intros _ (options & Hoptions)%mailOptions_renders.
      rewrite (post_contact_stored body w db ms) by done. cbn zeta.
      rewrite Hoptions. cbn [fst snd]. split; [done|].
      destruct (smtp_up w); by events_calc.
    + intros Hwrites. exfalso. apply Hwrites.
      rewrite (post_contact_stored body w db ms) by done. cbn zeta.
      destruct (mailOptions _ _ _ _ _); cbn [fst snd];
        [destruct (smtp_up w)|]; by events_calc.
  - destruct (post_contact_not_stored body w Hfail) as (w' & Hrun & Hsame & Hwrites & Hsends).
    split_and!.
    + intros up.
      assert (body = JNull ∨ disk (with_smtp up w) = NoFile ∨ disk (with_smtp up w) = NotJSON ∨
              (∃ db, disk (with_smtp up w) = Doc db ∧
                     (as_array (db !! "messages") = Throw TypeError ∨
                      writable (with_smtp up w) = false))) as Hfail' by done.
      destruct (post_contact_not_stored body _ Hfail') as (w'' & Hrun' & Hsame' & _).
      rewrite Hrun, Hrun'. cbn [fst snd]. by rewrite Hsame, Hsame'.
    + rewrite Hrun. cbn [fst snd]. rewrite Hwrites. done.
    + rewrite Hrun. cbn [fst snd]. done.
Qed.

Lemma contact_response_ignores_mail_witness :
  let body := obj [("name", JStr "Ann"); ("email", JStr "ann@example.com");
                   ("message", JStr "Hello")] in
  let read_only := MkWorld (Doc Sample.db) false true (clock Sample.w) 0 [] in
  (post_contact body Sample.w).1 = Ok (Response 200 (Some message_received))
  ∧ (post_contact body (with_smtp false Sample.w)).1
    = Ok (Response 200 (Some message_received))
  ∧ (post_contact body read_only).1 = Ok (Response 500 (Some submission_failed))
  ∧ sends (events read_only (post_contact body read_only).2) = 0%nat.
Proof.
  intros body read_only.
  destruct (contact_response_ignores_mail body Sample.w) as (Hmail & Hstored & _).
  destruct (contact_response_ignores_mail body read_only) as (_ & _ & Hfailed).
  destruct Hstored as [Hanswer _]; [reflexivity..|].
  destruct Hfailed as (Hanswer' & Hsends & _); [discriminate|].
  destruct (Hmail false) as [Hsame _].
  split_and!; [exact Hanswer|by rewrite Hsame|exact Hanswer'|exact Hsends].
Defined.

(** ** Reads and writes of the document *)

Lemma read_write_frame name v db w :
  read_once_wrote_once name db w
    (store (<[name := v]> db) (emit (EvWrite (<[name := v]> db)) (emit EvRead w))).
Proof.
  unfold read_once_wrote_once. rewrite events_read_write.
  split_and!; [done..|]. eexists. split; [done|].
  intros k Hk. by rewrite lookup_insert_ne.
Qed.

(** X23.  An update of an id that the collection holds,
    a delete and an update of the hero each read the document once and write
    it once, and the document written differs from the one read in the
    targeted field only; an update of an id that the collection does not
    hold reads the document and writes nothing. *)
Theorem mutations_read_and_write_once resource id body w db :
  disk w = Doc db → writable w = true →
  (∀ xs, db !! resource = Some (JArr xs) → no_null xs = true →
     let w' := (put_resource_id resource id body w).2 in
     (existsb (has_id id) xs = true → read_once_wrote_once resource db w w') ∧
     (existsb (has_id id) xs = false →
      reads (events w w') = 1%nat ∧ writes (events w w') = 0%nat ∧ disk w' = disk w)) ∧
  (∀ xs, db !! resource = Some (JArr xs) → no_null xs = true →
     read_once_wrote_once resource db w (delete_resource_id resource id w).2) ∧
  read_once_wrote_once "hero" db w (put_hero body w).2.
Proof.
  intros Hdisk Hwr. split_and!.
  - intros xs Hres Hnull. cbn zeta. split.
    + intros Hex.
      destruct (findIndex_found id xs Hnull Hex) as (i & x & Hfind & _).
      rewrite (put_resource_id_run _ _ _ _ _ _ _ Hdisk Hwr Hres Hfind).
      apply read_write_frame.
    + intros Hnone. unfold put_resource_id. run.
      rewrite Hres. cbn [as_array]. run.
      rewrite (findIndex_missing id xs Hnull Hnone). run.
      by rewrite (events_emitted w (emit EvRead w) [EvRead]).
  - intros xs Hres Hnull.
    rewrite (delete_resource_id_run _ _ _ _ _ Hdisk Hwr Hres Hnull).
    apply read_write_frame.
  - unfold put_hero. run. apply read_write_frame.
Qed.

Lemma mutations_read_and_write_once_witness :
  let body := obj [("title", JStr "Updated")] in
  read_once_wrote_once "posts" Sample.db Sample.w
    (put_resource_id "posts" "2" body Sample.w).2
  ∧ read_once_wrote_once "posts" Sample.db Sample.w
      (delete_resource_id "posts" "2" Sample.w).2
  ∧ read_once_wrote_once "hero" Sample.db Sample.w (put_hero body Sample.w).2.
Proof.
  intros body.
  destruct (mutations_read_and_write_once "posts" "2" body Sample.w Sample.db)
    as (Hput & Hdelete & Hhero); [reflexivity..|].
  destruct (Hput [Sample.hello; Sample.world_]) as [Hfound _]; [reflexivity..|].
  split_and!;
    [apply Hfound; reflexivity|apply (Hdelete [Sample.hello; Sample.world_]); reflexivity|
     exact Hhero].
Defined.

(** ** Create *)

(** The object literal of the new record: [created_at] is the generated one,
    every other field of the body is taken as it is, the [id] of the body
    included, and the generated [id] stands when the body has none. *)
Lemma newItem_fields now body created_at :
  newItem now body created_at !! "created_at" = Some (JStr created_at) ∧
  (∀ k, k ≠ "created_at" → k ≠ "id" →
        newItem now body created_at !! k = own_props (Some body) !! k) ∧
  (∀ v, own_props (Some body) !! "id" = Some v →
        newItem now body created_at !! "id" = Some v) ∧
  (own_props (Some body) !! "id" = None →
   newItem now body created_at !! "id" = Some (JStr (pretty now))).
Proof.
  unfold newItem, spread2, obj.
  generalize (own_props (Some body)). intros fields.
  cbn [own_props list_to_map foldr fst snd uncurry].
  split_and!.
  - apply lookup_insert_eq.
  - intros k Hc Hi. rewrite lookup_insert_ne, lookup_union by done.
    rewrite lookup_insert_ne, lookup_empty by done.
    by destruct (fields !! k).
  - intros v Hv. rewrite lookup_insert_ne by done. by apply lookup_union_Some_l.
  - intros Hnone. rewrite lookup_insert_ne, lookup_union_r by done.
    apply lookup_insert_eq.
Qed.

(** The handler never gets to the record: [new Error()] has no
    [toISOString], the call throws before anything is written. *)
Lemma post_resource_throws resource body w :
  ∃ w', express (post_resource resource body) w = (Response 500 None, w') ∧
        disk w' = disk w ∧ writes (events w w') = 0%nat.
Proof.
  unfold express, post_resource, readDB. rewrite bind_run.
  destruct (disk w) eqn:Hdisk; cbn.
  - eexists. split_and!; [done..|]. unfold events. by rewrite drop_all.
  - eexists. split_and!; [done..|]. by events_calc.
  - eexists. split_and!; [done..|]. by events_calc.
Qed.

(** C1 at [POST /api/posts {"title": "Hello"}]: the answer is the 500 of
    the error handler, not a record; nothing is written, and a later list
    holds the records it held before. *)
Theorem create_answers_error :
  let body := obj [("title", JStr "Hello")] in
  let after := (express (post_resource "posts" body) Sample.w).2 in
  (express (post_resource "posts" body) Sample.w).1 = Response 500 None ∧
  writes (events Sample.w after) = 0%nat ∧
  disk after = disk Sample.w ∧
  listing "posts" after = Response 200 (Some (JArr [Sample.hello; Sample.world_])).
Proof. repeat split; reflexivity. Qed.

(** C9 at [POST /api/posts {"title": "Hello"}]: the create reads the
    document once and never writes it, so it is not one read and one
    write. *)
Theorem create_reads_and_never_writes :
  let body := obj [("title", JStr "Hello")] in
  let after := (express (post_resource "posts" body) Sample.w).2 in
  reads (events Sample.w after) = 1%nat ∧
  writes (events Sample.w after) = 0%nat ∧
  disk after = disk Sample.w ∧
  ¬ read_once_wrote_once "posts" Sample.db Sample.w after.
Proof.
  split_and!; [reflexivity..|].
  intros (_ & Hwrites & _). vm_compute in Hwrites. discriminate.
Qed.

(** C10 at [POST /api/posts {"id": "custom-1", "title": "Hello"}]: no record
    is answered and none is stored, with the id of the body or with any
    other. *)
Theorem create_with_id_stores_nothing :
  let body := obj [("id", JStr "custom-1"); ("title", JStr "Hello")] in
  let after := (express (post_resource "posts" body) Sample.w).2 in
  (express (post_resource "posts" body) Sample.w).1 = Response 500 None ∧
  disk after = disk Sample.w ∧
  payload (listing "posts" after) = Some (JArr [Sample.hello; Sample.world_]) ∧
  existsb (has_id "custom-1") [Sample.hello; Sample.world_] = false.
Proof. repeat split; reflexivity. Qed.

(** * Further properties of the handlers *)

(** ** Routes that only read *)

Lemma events_same w : events w w = [].
Proof. unfold events. apply drop_all. Qed.

Lemma events_read w : events w (emit EvRead w) = [EvRead].
Proof. by apply events_emitted. Qed.

(** X2.  The list of a resource, the read of the hero and the login only
    read: whatever the request and the state of the file, they write
    nothing, send no mail and leave the file as it is. *)
Theorem reading_routes_write_nothing resource body w :
  ∀ handler,
    handler = get_resource resource ∨ handler = get_hero ∨ handler = post_login body →
    disk (express handler w).2 = disk w ∧
    writes (events w (express handler w).2) = 0%nat ∧
    sends (events w (express handler w).2) = 0%nat.
Proof.
  assert (∀ w', w' = w ∨ w' = emit EvRead w →
                disk w' = disk w ∧ writes (events w w') = 0%nat ∧
                sends (events w w') = 0%nat) as Hquiet.
  { intros w' [-> | ->]; [by rewrite events_same|by rewrite events_read]. }
  intros handler [-> | [-> | ->]]; apply Hquiet.
  - unfold express, get_resource, readDB. rewrite bind_run.
    destruct (disk w); cbn; auto.
  - unfold express, get_hero, readDB. rewrite bind_run.
    destruct (disk w); cbn; auto.
  - unfold express, post_login.
    assert (body = JNull ∨ body ≠ JNull) as [-> | Hbody] by (destruct body; auto);
      [by left|].
    run. rewrite !field_supplied by done. run. unfold readDB.
    destruct (disk w) as [| |db]; cbn [fst snd]; [by left|by right|].
    rewrite bind_run, lift_run.
    destruct (field (db !! "admin") "username" ≫= _) as [[]|]; cbn; by right.
Qed.

Lemma reading_routes_write_nothing_witness :
  disk (express (post_login (obj [("username", JStr "admin")])) Sample.w).2 = disk Sample.w ∧
  writes (events Sample.w (express (post_login (obj [("username", JStr "admin")])) Sample.w).2)
  = 0%nat ∧
  sends (events Sample.w (express (post_login (obj [("username", JStr "admin")])) Sample.w).2)
  = 0%nat.
Proof.
  apply (reading_routes_write_nothing "posts" (obj [("username", JStr "admin")]) Sample.w).
  right. right. reflexivity.
Defined.

(** X3.  When [database.json] is missing or is not JSON, every route of the
    API answers 500 and the file stays as it is; the contact form answers
    its own failure message and hands no mail to the transport. *)
Theorem unreadable_file_answers_500 resource id body w :
  (∀ db, disk w ≠ Doc db) →
  (∀ handler,
     handler ∈ [get_resource resource; post_resource resource body;
                put_resource_id resource id body; delete_resource_id resource id;
                get_hero; put_hero body; post_login body] →
     (express handler w).1 = Response 500 None ∧ disk (express handler w).2 = disk w) ∧
  (express (post_contact body) w).1 = Response 500 (Some submission_failed) ∧
  disk (express (post_contact body) w).2 = disk w ∧
  sends (events w (express (post_contact body) w).2) = 0%nat.
Proof.
  intros Hdisk.
  assert (readDB w = (Throw SystemError, w) ∨ readDB w = (Throw SyntaxError, emit EvRead w))
    as Hread.
  { unfold readDB. destruct (disk w) as [| |db]; [by left|by right|by destruct (Hdisk db)]. }
  split.
  - intros handler Hin.
    assert (body = JNull ∨ body ≠ JNull) as Hbody by (destruct body; auto).
    repeat (apply elem_of_cons in Hin as [-> | Hin]); [..|by apply elem_of_nil in Hin];
      unfold express, get_resource, post_resource, put_resource_id, delete_resource_id,
        get_hero, put_hero, post_login.
    1-6: rewrite bind_run; by destruct Hread as [-> | ->].
    destruct Hbody as [-> | Hbody]; [done|].
    run. rewrite !field_supplied by done. run.
    by destruct Hread as [-> | ->].
  - assert (body = JNull ∨ disk w = NoFile ∨ disk w = NotJSON ∨
            (∃ db, disk w = Doc db ∧
                   (as_array (db !! "messages") = Throw TypeError ∨ writable w = false)))
      as Hfail.
    { destruct (disk w) as [| |db]; [by auto..|by destruct (Hdisk db)]. }
    destruct (post_contact_not_stored body w Hfail) as (w' & Hrun & Hsame & _ & Hsends).
    unfold express. rewrite Hrun. done.
Qed.

Lemma unreadable_file_answers_500_witness :
  (express (get_resource "posts") (MkWorld NotJSON true true (clock Sample.w) 0 [])).1
  = Response 500 None
  ∧ (express (post_contact (obj [("name", JStr "Ann")]))
       (MkWorld NotJSON true true (clock Sample.w) 0 [])).1
    = Response 500 (Some submission_failed).
Proof.
  destruct (unreadable_file_answers_500 "posts" "1" (obj [("name", JStr "Ann")])
              (MkWorld NotJSON true true (clock Sample.w) 0 []))
    as (Hroutes & Hcontact & _); [discriminate|].
  split; [|exact Hcontact].
  apply Hroutes. left.
Defined.

(** ** Collections that are not what the handlers expect *)

Lemma as_array_throws (v : value) :
  (∀ xs, v ≠ Some (JArr xs)) → as_array v = Throw TypeError.
Proof. intros Hv. destruct v as [[| | | |xs|]|]; try done. by destruct (Hv xs). Qed.

(** X4.  When the document has no field for the resource, or the field is
    not an array, an update and a delete throw on the array method: the
    answer is 500 and nothing is written. *)
Theorem put_delete_need_array resource id body w db :
  disk w = Doc db →
  (∀ xs, db !! resource ≠ Some (JArr xs)) →
  express (put_resource_id resource id body) w = (Response 500 None, emit EvRead w) ∧
  express (delete_resource_id resource id) w = (Response 500 None, emit EvRead w) ∧
  disk (emit EvRead w) = disk w.
Proof.
  intros Hdisk Hres. split_and!; [| |done].
  - unfold express, put_resource_id. run. by rewrite (as_array_throws _ Hres).
  - unfold express, delete_resource_id. run. by rewrite (as_array_throws _ Hres).
Qed.

Lemma put_delete_need_array_witness :
  express (put_resource_id "team" "1" (obj [("title", JStr "Updated")])) Sample.w
  = (Response 500 None, emit EvRead Sample.w) ∧
  express (delete_resource_id "team" "1") Sample.w
  = (Response 500 None, emit EvRead Sample.w) ∧
  disk (emit EvRead Sample.w) = disk Sample.w.
Proof.
  apply (put_delete_need_array "team" "1" _ Sample.w Sample.db); [reflexivity|].
  intros xs. vm_compute. discriminate.
Defined.

Lemma filter_cb_null id xs :
  no_null xs = false → filter_cb (id_is_not id) xs = Throw TypeError.
Proof.
  induction xs as [|x xs IH]; [done|]. cbn [filter_cb].
  assert (x = JNull ∨ x ≠ JNull) as [-> | Hx] by (destruct x; auto); [done|].
  intros Hnull. rewrite id_is_not_has_id by done. cbn [mbind result_bind].
  rewrite IH; [done|]. destruct (no_null xs) eqn:Hxs; [|done].
  rewrite <- Hnull. symmetry. apply no_null_cons. done.
Qed.

(** X5.  A delete asks every element of the collection for its id: one
    [null] element anywhere makes it throw, the answer is 500 and nothing is
    written, whether or not a record has the id. *)
Theorem delete_null_element resource id w db xs :
  disk w = Doc db →
  db !! resource = Some (JArr xs) →
  no_null xs = false →
  express (delete_resource_id resource id) w = (Response 500 None, emit EvRead w) ∧
  disk (emit EvRead w) = disk w.
Proof.
  intros Hdisk Hres Hnull. split; [|done].
  unfold express, delete_resource_id. run. rewrite Hres. cbn [as_array]. run.
  by rewrite (filter_cb_null id xs Hnull).
Qed.

Lemma delete_null_element_witness :
  express (delete_resource_id "posts" "1")
    (MkWorld (Doc (<["posts" := JArr [Sample.hello; JNull]]> Sample.db)) true true
       (clock Sample.w) 0 [])
  = (Response 500 None,
     emit EvRead (MkWorld (Doc (<["posts" := JArr [Sample.hello; JNull]]> Sample.db))
                    true true (clock Sample.w) 0 [])) ∧
  disk (emit EvRead (MkWorld (Doc (<["posts" := JArr [Sample.hello; JNull]]> Sample.db))
                       true true (clock Sample.w) 0 []))
  = disk (MkWorld (Doc (<["posts" := JArr [Sample.hello; JNull]]> Sample.db)) true true
            (clock Sample.w) 0 []).
Proof.
  apply (delete_null_element "posts" "1" _
           (<["posts" := JArr [Sample.hello; JNull]]> Sample.db) [Sample.hello; JNull]);
    reflexivity.
Defined.

Lemma findIndex_first id pre x post :
  no_null pre = true → existsb (has_id id) pre = false → x ≠ JNull →
  findIndex (id_is id) (pre ++ x :: post)
  = if has_id id x then Ok (Some (length pre))
    else index ← findIndex (id_is id) post;
         Ok ((λ i, length pre + S i)%nat <$> (index : option nat)).
Proof.
  intros Hnull Hnone Hx. induction pre as [|y pre IH].
  - cbn [app findIndex length]. rewrite id_is_has_id by done. cbn [mbind result_bind].
    destruct (has_id id x); [done|].
    destruct (findIndex (id_is id) post) as [[i|]|]; done.
  - apply no_null_cons in Hnull as [Hy Hnull].
    cbn in Hnone. apply orb_false_iff in Hnone as [Hyid Hnone].
    cbn [app findIndex]. rewrite id_is_has_id, Hyid by done. cbn [mbind result_bind].
    rewrite (IH Hnull Hnone).
    destruct (has_id id x); [done|].
    destruct (findIndex (id_is id) post) as [[i|]|]; done.
Qed.

Lemma findIndex_null id pre post :
  no_null pre = true → existsb (has_id id) pre = false →
  findIndex (id_is id) (pre ++ JNull :: post) = Throw TypeError.
Proof.
  intros Hnull Hnone. induction pre as [|y pre IH]; [done|].
  apply no_null_cons in Hnull as [Hy Hnull].
  cbn in Hnone. apply orb_false_iff in Hnone as [Hyid Hnone].
  cbn [app findIndex]. rewrite id_is_has_id, Hyid by done. cbn [mbind result_bind].
  by rewrite (IH Hnull Hnone).
Qed.

(** X6.  An update changes the first record with the id and nothing else:
    the records before and after it, later records with the same id and
    [null] elements after it included, are written back as they were, in
    the same places. *)
Theorem put_changes_first_match_only resource id body w db pre old post :
  disk w = Doc db → writable w = true →
  db !! resource = Some (JArr (pre ++ JObj old :: post)) →
  no_null pre = true →
  existsb (has_id id) pre = false →
  old !! "id" = Some (JStr id) →
  ∃ w',
    express (put_resource_id resource id body) w
    = (Response 200 (Some (JObj (own_props (Some body) ∪ old))), w') ∧
    disk w'
    = Doc (<[resource := JArr (pre ++ JObj (own_props (Some body) ∪ old) :: post)]> db).
Proof.
  intros Hdisk Hwr Hres Hnull Hnone Hid.
  assert (has_id id (JObj old) = true) as Hhas.
  { apply has_id_true. by exists old. }
  assert (findIndex (id_is id) (pre ++ JObj old :: post) = Ok (Some (length pre))) as Hfind.
  { rewrite findIndex_first by done. by rewrite Hhas. }
  eexists. unfold express.
  rewrite (put_resource_id_run _ _ _ _ _ _ _ Hdisk Hwr Hres Hfind). cbn zeta.
  rewrite list_lookup_middle by done. cbn [spread2 own_props].
  rewrite insert_app_r_alt, Nat.sub_diag by done. cbn [insert list_insert].
  rewrite list_lookup_middle by done. done.
Qed.

Lemma put_changes_first_match_only_witness :
  ∃ w',
    express (put_resource_id "posts" "1" (obj [("title", JStr "Updated")]))
      (MkWorld (Doc (<["posts" := JArr [Sample.world_; Sample.hello; JNull; Sample.hello]]>
                       Sample.db)) true true (clock Sample.w) 0 [])
    = (Response 200
         (Some (JObj (own_props (Some (obj [("title", JStr "Updated")]))
                      ∪ list_to_map [("id", JStr "1"); ("title", JStr "Hello");
                                     ("created_at", JStr "2024-01-01T00:00:00.000Z")]))),
       w') ∧
    disk w'
    = Doc (<["posts" :=
               JArr ([Sample.world_]
                     ++ JObj (own_props (Some (obj [("title", JStr "Updated")]))
                              ∪ list_to_map [("id", JStr "1"); ("title", JStr "Hello");
                                             ("created_at", JStr "2024-01-01T00:00:00.000Z")])
                     :: [JNull; Sample.hello])]>
             (<["posts" := JArr [Sample.world_; Sample.hello; JNull; Sample.hello]]>
                Sample.db)).
Proof.
  apply (put_changes_first_match_only "posts" "1" (obj [("title", JStr "Updated")])
           (MkWorld (Doc (<["posts" := JArr [Sample.world_; Sample.hello; JNull; Sample.hello]]>
                            Sample.db)) true true (clock Sample.w) 0 [])
           (<["posts" := JArr [Sample.world_; Sample.hello; JNull; Sample.hello]]> Sample.db)
           [Sample.world_]
           (list_to_map [("id", JStr "1"); ("title", JStr "Hello");
                         ("created_at", JStr "2024-01-01T00:00:00.000Z")])
           [JNull; Sample.hello]); reflexivity.
Defined.

(** X7.  An update that meets a [null] element before a record with the id
    throws: the answer is 500, not 404, and nothing is written. *)
Theorem put_null_before_match resource id body w db pre post :
  disk w = Doc db →
  db !! resource = Some (JArr (pre ++ JNull :: post)) →
  no_null pre = true →
  existsb (has_id id) pre = false →
  express (put_resource_id resource id body) w = (Response 500 None, emit EvRead w) ∧
  disk (emit EvRead w) = disk w.
Proof.
  intros Hdisk Hres Hnull Hnone. split; [|done].
  unfold express, put_resource_id. run. rewrite Hres. cbn [as_array]. run.
  by rewrite (findIndex_null id pre post Hnull Hnone).
Qed.

Lemma put_null_before_match_witness :
  express (put_resource_id "posts" "2" (obj [("title", JStr "Updated")]))
    (MkWorld (Doc (<["posts" := JArr [Sample.hello; JNull; Sample.world_]]> Sample.db))
       true true (clock Sample.w) 0 [])
  = (Response 500 None,
     emit EvRead (MkWorld (Doc (<["posts" := JArr [Sample.hello; JNull; Sample.world_]]>
                                  Sample.db)) true true (clock Sample.w) 0 [])) ∧
  disk (emit EvRead (MkWorld (Doc (<["posts" := JArr [Sample.hello; JNull; Sample.world_]]>
                                     Sample.db)) true true (clock Sample.w) 0 []))
  = disk (MkWorld (Doc (<["posts" := JArr [Sample.hello; JNull; Sample.world_]]> Sample.db))
            true true (clock Sample.w) 0 []).
Proof.
  apply (put_null_before_match "posts" "2" _ _
           (<["posts" := JArr [Sample.hello; JNull; Sample.world_]]> Sample.db)
           [Sample.hello] [Sample.world_]); reflexivity.
Defined.

(** ** How the operations compose *)

Lemma without_no_match id xs : existsb (has_id id) (without id xs) = false.
Proof.
  unfold without. induction xs as [|x xs IH]; [done|].
  rewrite filter_cons. case_decide as Hx; [|done].
  cbn. by rewrite Hx, IH.
Qed.

Lemma without_comm a b xs : without a (without b xs) = without b (without a xs).
Proof.
  unfold without. induction xs as [|x xs IH]; [done|].
  rewrite !filter_cons.
  destruct (decide (has_id b x = false)) as [Hb|Hb],
           (decide (has_id a x = false)) as [Ha|Ha];
    rewrite ?filter_cons, ?decide_True, ?decide_False by done; by rewrite ?IH.
Qed.

Lemma put_unknown_id_not_found_aux resource id body w db xs :
  disk w = Doc db →
  db !! resource = Some (JArr xs) →
  no_null xs = true →
  existsb (has_id id) xs = false →
  express (put_resource_id resource id body) w
  = (Response 404 (Some not_found), emit EvRead w).
Proof.
  intros Hdisk Hres Hnull Hnone.
  unfold express, put_resource_id. run.
  rewrite Hres. cbn [as_array]. run.
  rewrite (findIndex_missing id xs Hnull Hnone). by run.
Qed.

(** X8.  After a delete no record of the collection has the id: an update
    of that id is answered 404. *)
Theorem delete_then_put_not_found resource id body w db xs :
  disk w = Doc db → writable w = true →
  db !! resource = Some (JArr xs) →
  no_null xs = true →
  let after := (express (delete_resource_id resource id) w).2 in
  (express (put_resource_id resource id body) after).1 = Response 404 (Some not_found) ∧
  payload (listing resource after) = Some (JArr (without id xs)) ∧
  existsb (has_id id) (without id xs) = false.
Proof.
  intros Hdisk Hwr Hres Hnull after.
  assert (after = let db' := <[resource := JArr (without id xs)]> db in
                  store db' (emit (EvWrite db') (emit EvRead w))) as ->.
  { unfold after, express.
    by rewrite (delete_resource_id_run _ _ _ _ _ Hdisk Hwr Hres Hnull). }
  cbn zeta. split_and!; [| |apply without_no_match].
  - rewrite (put_unknown_id_not_found_aux resource id body _
               (<[resource := JArr (without id xs)]> db) (without id xs));
      [done|done|apply lookup_insert_eq|by apply no_null_without|apply without_no_match].
  - unfold listing, express, get_resource. run.
    rewrite (readDB_run _ (<[resource := JArr (without id xs)]> db)) by done.
    cbn. by rewrite lookup_insert_eq.
Qed.

Lemma delete_then_put_not_found_witness :
  let after := (express (delete_resource_id "posts" "2") Sample.w).2 in
  (express (put_resource_id "posts" "2" (obj [("title", JStr "Updated")])) after).1
  = Response 404 (Some not_found) ∧
  payload (listing "posts" after) = Some (JArr (without "2" [Sample.hello; Sample.world_])) ∧
  existsb (has_id "2") (without "2" [Sample.hello; Sample.world_]) = false.
Proof.
  apply (delete_then_put_not_found "posts" "2" _ Sample.w Sample.db); reflexivity.
Defined.

Lemma delete_disk resource id w db xs :
  disk w = Doc db → writable w = true →
  db !! resource = Some (JArr xs) → no_null xs = true →
  let w' := (express (delete_resource_id resource id) w).2 in
  disk w' = Doc (<[resource := JArr (without id xs)]> db) ∧ writable w' = true.
Proof.
  intros Hdisk Hwr Hres Hnull. unfold express.
  rewrite (delete_resource_id_run _ _ _ _ _ Hdisk Hwr Hres Hnull). done.
Qed.

(** X9.  Two deletes leave the same document in either order. *)
Theorem deletes_commute resource a b w db xs :
  disk w = Doc db → writable w = true →
  db !! resource = Some (JArr xs) →
  no_null xs = true →
  disk (express (delete_resource_id resource b)
          (express (delete_resource_id resource a) w).2).2
  = disk (express (delete_resource_id resource a)
            (express (delete_resource_id resource b) w).2).2.
Proof.
  intros Hdisk Hwr Hres Hnull.
  destruct (delete_disk resource a w db xs Hdisk Hwr Hres Hnull) as [Ha Hwa].
  destruct (delete_disk resource b w db xs Hdisk Hwr Hres Hnull) as [Hb Hwb].
  destruct (delete_disk resource b _ _ (without a xs) Ha Hwa) as [-> _];
    [apply lookup_insert_eq|by apply no_null_without|].
  destruct (delete_disk resource a _ _ (without b xs) Hb Hwb) as [-> _];
    [apply lookup_insert_eq|by apply no_null_without|].
  by rewrite !insert_insert_eq, without_comm.
Qed.

Lemma deletes_commute_witness :
  disk (express (delete_resource_id "posts" "2")
          (express (delete_resource_id "posts" "1") Sample.w).2).2
  = disk (express (delete_resource_id "posts" "1")
            (express (delete_resource_id "posts" "2") Sample.w).2).2.
Proof.
  apply (deletes_commute "posts" "1" "2" Sample.w Sample.db [Sample.hello; Sample.world_]);
    reflexivity.
Defined.

(** X10.  An update with an empty object as its body answers the record as
    it is stored and writes the document back unchanged. *)
Theorem put_empty_body resource id w db xs :
  disk w = Doc db → writable w = true →
  db !! resource = Some (JArr xs) →
  no_null xs = true →
  existsb (has_id id) xs = true →
  ∃ record w',
    record ∈ xs ∧ has_id id record = true ∧
    express (put_resource_id resource id (JObj ∅)) w = (Response 200 (Some record), w') ∧
    disk w' = disk w ∧
    events w w' = [EvRead; EvWrite db].
Proof.
  intros Hdisk Hwr Hres Hnull Hex.
  destruct (findIndex_found id xs Hnull Hex) as (i & x & Hfind & Hi & Hx & _).
  pose proof Hx as (old & -> & Hid)%has_id_true.
  assert (<[i := JObj (spread2 (xs !! i) (Some (JObj ∅)))]> xs = xs) as Hxs.
  { rewrite Hi. unfold spread2. cbn [own_props]. rewrite (left_id_L ∅ (∪)).
    by apply list_insert_id. }
  assert (<[resource := JArr xs]> db = db) as Hdb by (by apply insert_id).
  exists (JObj old). eexists. split_and!.
  - by eapply list_elem_of_lookup_2.
  - done.
  - unfold express. rewrite (put_resource_id_run _ _ _ _ _ _ _ Hdisk Hwr Hres Hfind).
    cbn zeta. rewrite Hxs, Hdb, Hi. done.
  - by rewrite Hdisk.
  - apply events_read_write.
Qed.

Lemma put_empty_body_witness :
  ∃ record w',
    record ∈ [Sample.hello; Sample.world_] ∧ has_id "2" record = true ∧
    express (put_resource_id "posts" "2" (JObj ∅)) Sample.w
    = (Response 200 (Some record), w') ∧
    disk w' = disk Sample.w ∧
    events Sample.w w' = [EvRead; EvWrite Sample.db].
Proof.
  apply (put_empty_body "posts" "2" Sample.w Sample.db [Sample.hello; Sample.world_]);
    reflexivity.
Defined.

Lemma put_hero_disk body w db :
  disk w = Doc db → writable w = true →
  let w' := (express (put_hero body) w).2 in
  (express (put_hero body) w).1 = Response 200 (Some (JObj (spread2 (db !! "hero") (Some body)))) ∧
  disk w' = Doc (<["hero" := JObj (spread2 (db !! "hero") (Some body))]> db) ∧
  writable w' = true.
Proof. intros Hdisk Hwr. unfold express, put_hero. by run. Qed.

(** X11.  Updates of the hero accumulate: two updates leave the document
    that the one update with both bodies merged, the later over the earlier,
    leaves, and give the same answer; so an update sent twice leaves what
    it left the first time. *)
Theorem put_hero_twice first second w db :
  disk w = Doc db → writable w = true →
  let both := JObj (own_props (Some second) ∪ own_props (Some first)) in
  let after := (express (put_hero first) w).2 in
  (express (put_hero second) after).1 = (express (put_hero both) w).1 ∧
  disk (express (put_hero second) after).2 = disk (express (put_hero both) w).2 ∧
  (express (put_hero first) after).1 = (express (put_hero first) w).1 ∧
  disk (express (put_hero first) after).2 = disk after.
Proof.
  intros Hdisk Hwr both after.
  destruct (put_hero_disk first w db Hdisk Hwr) as (Hr1 & Hd1 & Hw1).
  fold after in Hd1, Hw1.
  destruct (put_hero_disk both w db Hdisk Hwr) as (-> & -> & _).
  destruct (put_hero_disk second after _ Hd1 Hw1) as (-> & -> & _).
  destruct (put_hero_disk first after _ Hd1 Hw1) as (-> & -> & _).
  rewrite Hr1, Hd1, !lookup_insert_eq, !insert_insert_eq.
  unfold both, spread2. cbn [own_props].
  rewrite !(assoc_L (∪)), (idemp_L (∪)). done.
Qed.

Lemma put_hero_twice_witness :
  let first := obj [("title", JStr "New")] in
  let second := obj [("subtitle", JStr "We ship")] in
  let both := JObj (own_props (Some second) ∪ own_props (Some first)) in
  let after := (express (put_hero first) Sample.w).2 in
  (express (put_hero second) after).1 = (express (put_hero both) Sample.w).1 ∧
  disk (express (put_hero second) after).2 = disk (express (put_hero both) Sample.w).2 ∧
  (express (put_hero first) after).1 = (express (put_hero first) Sample.w).1 ∧
  disk (express (put_hero first) after).2 = disk after.
Proof.
  apply (put_hero_twice (obj [("title", JStr "New")]) (obj [("subtitle", JStr "We ship")])
           Sample.w Sample.db); reflexivity.
Defined.

(** ** Login on a document without credentials *)

(** X12.  When the document has no [admin] field, or [admin] is [null], a
    login throws on the read of the stored username: the answer is 500, not
    401. *)
Theorem login_without_admin body w db :
  body ≠ JNull →
  disk w = Doc db →
  db !! "admin" = None ∨ db !! "admin" = Some JNull →
  express (post_login body) w = (Response 500 None, emit EvRead w).
Proof.
  intros Hbody Hdisk Hadmin. unfold express, post_login. run.
  rewrite !field_supplied by done. run.
  by destruct Hadmin as [-> | ->].
Qed.

Lemma login_without_admin_witness :
  express (post_login (obj [("username", JStr "admin"); ("password", JStr "Secret1")]))
    (MkWorld (Doc (delete "admin" Sample.db)) true true (clock Sample.w) 0 [])
  = (Response 500 None,
     emit EvRead (MkWorld (Doc (delete "admin" Sample.db)) true true (clock Sample.w) 0 [])).
Proof.
  apply (login_without_admin _ _ (delete "admin" Sample.db));
    [discriminate|reflexivity|left; reflexivity].
Defined.

(** X13.  The comparison also holds between two missing values: when the
    stored [admin] object has neither a username nor a password, a login
    that supplies neither succeeds. *)
Theorem login_absent_matches_absent body w db admin :
  body ≠ JNull →
  disk w = Doc db →
  db !! "admin" = Some (JObj admin) →
  admin !! "username" = None → admin !! "password" = None →
  supplied body "username" = None → supplied body "password" = None →
  (express (post_login body) w).1 = Response 200 (Some success).
Proof.
  intros Hbody Hdisk Hadmin Hu Hp Hbu Hbp. unfold express, post_login. run.
  rewrite !field_supplied by done. run.
  rewrite Hadmin. cbn [field]. by rewrite Hu, Hp, Hbu, Hbp.
Qed.

Lemma login_absent_matches_absent_witness :
  (express (post_login (JObj ∅))
     (MkWorld (Doc (<["admin" := JObj ∅]> Sample.db)) true true (clock Sample.w) 0 [])).1
  = Response 200 (Some success).
Proof.
  apply (login_absent_matches_absent (JObj ∅) _ (<["admin" := JObj ∅]> Sample.db) ∅);
    [discriminate|reflexivity..].
Defined.

(** ** Create, for every request *)

(** X14.  No request creates a record: for every resource, body and state
    of the file the create handler answers 500, writes nothing, and every
    list answers afterwards what it answered before. *)
Theorem create_never_stores resource body w :
  (express (post_resource resource body) w).1 = Response 500 None ∧
  disk (express (post_resource resource body) w).2 = disk w ∧
  writes (events w (express (post_resource resource body) w).2) = 0%nat ∧
  ∀ other, listing other (express (post_resource resource body) w).2 = listing other w.
Proof.
  assert (∃ w', express (post_resource resource body) w = (Response 500 None, w') ∧
                disk w' = disk w ∧ writes (events w w') = 0%nat) as (w' & -> & Hdisk & Hwrites).
  { unfold express, post_resource, readDB. rewrite bind_run.
    destruct (disk w) eqn:Hdisk; cbn.
    - eexists. split_and!; [done..|]. by rewrite events_same.
    - eexists. split_and!; [done..|]. by events_calc.
    - eexists. split_and!; [done..|]. by events_calc. }
  split_and!; [done..|]. intros other. by apply listing_disk.
Qed.

(** ** More on the contact form *)

Lemma mailOptions_contact body :
  mailOptions (supplied body "name") (supplied body "phone") (supplied body "email")
    (supplied body "company") (supplied body "message")
  = if contact_renders body
    then Ok (Mail (supplied body "name") (or_else (supplied body "phone") (JStr "N/A"))
               (supplied body "email") (or_else (supplied body "company") (JStr "N/A"))
               (supplied body "message"))
    else Throw TypeError.
Proof.
  unfold mailOptions, contact_renders. cbn [forallb].
  rewrite !interpolates_or_else.
  destruct (interpolates (supplied body "name")), (interpolates (supplied body "phone")),
    (interpolates (supplied body "email")), (interpolates (supplied body "company")),
    (interpolates (supplied body "message")); done.
Qed.

Lemma post_contact_after body w db ms :
  body ≠ JNull → disk w = Doc db → writable w = true →
  db !! "messages" = Some (JArr ms) →
  let record := newMessage (clock w (ticks w)) (supplied body "name")
                  (supplied body "phone") (supplied body "email")
                  (supplied body "company") (supplied body "message")
                  (Date_toISOString (clock w (S (ticks w)))) in
  let w' := (post_contact body w).2 in
  disk w' = Doc (<["messages" := JArr (ms ++ [JObj record])]> db) ∧
  writable w' = true ∧ clock w' = clock w ∧ ticks w' = S (S (ticks w)).
Proof.
  intros Hbody Hdisk Hwr Hms. cbn zeta.
  rewrite (post_contact_stored body w db ms Hbody Hdisk Hwr Hms). cbn zeta.
  by destruct (mailOptions _ _ _ _ _).
Qed.



(** X16.  A value of the body that cannot be converted to a string, an
    object with a [toString] property of its own, makes the mail template
    throw after the write: the record is stored, the answer is the 500
    failure, and no mail is handed to the transport. *)
Theorem contact_stored_but_failed body w db ms :
  body ≠ JNull → disk w = Doc db → writable w = true →
  db !! "messages" = Some (JArr ms) →
  contact_renders body = false →
  ∃ record,
    (post_contact body w).1 = Ok (Response 500 (Some submission_failed)) ∧
    disk (post_contact body w).2 = Doc (<["messages" := JArr (ms ++ [JObj record])]> db) ∧
    events w (post_contact body w).2
    = [EvRead; EvWrite (<["messages" := JArr (ms ++ [JObj record])]> db);
       EvLog MessageStored; EvError SubmissionFailed].
Proof.
  intros Hbody Hdisk Hwr Hms Hrenders.
  rewrite (post_contact_stored body w db ms Hbody Hdisk Hwr Hms). cbn zeta.
  rewrite mailOptions_contact, Hrenders. cbn [fst snd].
  eexists. split_and!; [done..|by events_calc].
Qed.

Lemma contact_stored_but_failed_witness :
  let body := obj [("name", obj [("toString", JNull)]); ("message", JStr "Hello")] in
  ∃ record,
    (post_contact body Sample.w).1 = Ok (Response 500 (Some submission_failed)) ∧
    disk (post_contact body Sample.w).2
    = Doc (<["messages" := JArr ([] ++ [JObj record])]> Sample.db) ∧
    events Sample.w (post_contact body Sample.w).2
    = [EvRead; EvWrite (<["messages" := JArr ([] ++ [JObj record])]> Sample.db);
       EvLog MessageStored; EvError SubmissionFailed].
Proof.
  apply (contact_stored_but_failed
           (obj [("name", obj [("toString", JNull)]); ("message", JStr "Hello")])
           Sample.w Sample.db []); [discriminate|reflexivity..].
Defined.

(** X17.  The stored record takes from the body its [name], [email] and
    [message], each left out when the body has none, and nothing else: no
    other field of the body is stored, and an [id] or a [created_at] of the
    body does not replace the generated one.  The messages stored before
    keep their places, and no other field of the document changes. *)
Theorem contact_record_shape body w db ms :
  body ≠ JNull → disk w = Doc db → writable w = true →
  db !! "messages" = Some (JArr ms) →
  ∃ record db',
    disk (post_contact body w).2 = Doc db' ∧
    db' !! "messages" = Some (JArr (ms ++ [JObj record])) ∧
    frame "messages" db db' ∧
    record !! "name" = supplied body "name" ∧
    record !! "email" = supplied body "email" ∧
    record !! "message" = supplied body "message" ∧
    record !! "id" = Some (JStr (pretty (clock w (ticks w)))) ∧
    record !! "created_at" = Some (JStr (Date_toISOString (clock w (S (ticks w))))) ∧
    ∀ k, k ∉ ["id"; "name"; "phone"; "email"; "company"; "message"; "created_at"] →
         record !! k = None.
Proof.
  intros Hbody Hdisk Hwr Hms.
  destruct (post_contact_after body w db ms Hbody Hdisk Hwr Hms) as (Hafter & _).
  destruct (newMessage_fields (clock w (ticks w)) (supplied body "name")
              (supplied body "phone") (supplied body "email") (supplied body "company")
              (supplied body "message") (Date_toISOString (clock w (S (ticks w)))))
    as (Hid & Hcreated & _ & _ & Hname & Hemail & Hmessage).
  eexists _, _. split_and!; [exact Hafter|apply lookup_insert_eq| |done..|].
  - intros k Hk. by rewrite lookup_insert_ne.
  - intros k Hk. unfold newMessage, literal. cbn [foldl fst snd].
    repeat (apply not_elem_of_cons in Hk as [? Hk]).
    destruct (supplied body "name"), (supplied body "email"), (supplied body "message");
      by simplify_map_eq.
Qed.

Lemma contact_record_shape_witness :
  let body := obj [("id", JStr "mine"); ("name", JStr "Ann"); ("role", JStr "admin")] in
  ∃ record db',
    disk (post_contact body Sample.w).2 = Doc db' ∧
    db' !! "messages" = Some (JArr ([] ++ [JObj record])) ∧
    frame "messages" Sample.db db' ∧
    record !! "name" = supplied body "name" ∧
    record !! "email" = supplied body "email" ∧
    record !! "message" = supplied body "message" ∧
    record !! "id" = Some (JStr (pretty (clock Sample.w (ticks Sample.w)))) ∧
    record !! "created_at"
    = Some (JStr (Date_toISOString (clock Sample.w (S (ticks Sample.w))))) ∧
    ∀ k, k ∉ ["id"; "name"; "phone"; "email"; "company"; "message"; "created_at"] →
         record !! k = None.
Proof.
  apply (contact_record_shape
           (obj [("id", JStr "mine"); ("name", JStr "Ann"); ("role", JStr "admin")])
           Sample.w Sample.db []); [discriminate|reflexivity..].
Defined.

(** X18.  The id of a stored message is the reading of the clock at its
    submission: two submissions in a row store records with the same id
    exactly when the clock gave them the same millisecond. *)
Theorem contact_ids_follow_clock first second w db ms :
  first ≠ JNull → second ≠ JNull →
  disk w = Doc db → writable w = true →
  db !! "messages" = Some (JArr ms) →
  ∃ r1 r2,
    disk (post_contact second (post_contact first w).2).2
    = Doc (<["messages" := JArr (ms ++ [JObj r1; JObj r2])]> db) ∧
    r1 !! "id" = Some (JStr (pretty (clock w (ticks w)))) ∧
    r2 !! "id" = Some (JStr (pretty (clock w (S (S (ticks w)))))) ∧
    (r1 !! "id" = r2 !! "id" ↔ clock w (ticks w) = clock w (S (S (ticks w)))).
Proof.
  intros Hfirst Hsecond Hdisk Hwr Hms.
  destruct (post_contact_after first w db ms Hfirst Hdisk Hwr Hms)
    as (Hdisk1 & Hwr1 & Hclock1 & Hticks1).
  destruct (post_contact_after second _ _ (ms ++ [JObj (newMessage (clock w (ticks w))
              (supplied first "name") (supplied first "phone") (supplied first "email")
              (supplied first "company") (supplied first "message")
              (Date_toISOString (clock w (S (ticks w)))))])
              Hsecond Hdisk1 Hwr1) as (Hdisk2 & _); [apply lookup_insert_eq|].
  rewrite Hclock1, Hticks1, insert_insert_eq, <- app_assoc in Hdisk2. cbn [app] in Hdisk2.
  eexists _, _. split; [exact Hdisk2|].
  assert (∀ now name phone email company message created_at,
            newMessage now name phone email company message created_at !! "id"
            = Some (JStr (pretty now))) as Hid.
  { intros. apply newMessage_fields. }
  rewrite !Hid. split_and!; [done..|]. split.
  - intros [= Heq]. by apply (inj pretty) in Heq.
  - by intros ->.
Qed.

Lemma contact_ids_follow_clock_witness :
  ∃ r1 r2,
    disk (post_contact (obj [("name", JStr "Bob")])
            (post_contact (obj [("name", JStr "Ann")]) Sample.w).2).2
    = Doc (<["messages" := JArr ([] ++ [JObj r1; JObj r2])]> Sample.db) ∧
    r1 !! "id" = Some (JStr (pretty (clock Sample.w (ticks Sample.w)))) ∧
    r2 !! "id" = Some (JStr (pretty (clock Sample.w (S (S (ticks Sample.w)))))) ∧
    (r1 !! "id" = r2 !! "id"
     ↔ clock Sample.w (ticks Sample.w) = clock Sample.w (S (S (ticks Sample.w)))).
Proof.
  apply (contact_ids_follow_clock (obj [("name", JStr "Ann")]) (obj [("name", JStr "Bob")])
           Sample.w Sample.db []); [discriminate|discriminate|reflexivity..].
Defined.

Lemma without_none id xs : existsb (has_id id) xs = false → without id xs = xs.
Proof.
  unfold without. induction xs as [|x xs IH]; [done|].
  intros Hnone. cbn in Hnone. apply orb_false_iff in Hnone as [Hx Hxs].
  rewrite filter_cons, decide_True by done. by rewrite IH.
Qed.

(** X19.  A stored message can be removed through the generic delete of
    the [messages] resource: when no earlier message has its id, the delete
    of that id restores the document as it was before the submission. *)
Theorem contact_then_delete body w db ms :
  body ≠ JNull → disk w = Doc db → writable w = true →
  db !! "messages" = Some (JArr ms) →
  no_null ms = true →
  existsb (has_id (pretty (clock w (ticks w)))) ms = false →
  let after := (post_contact body w).2 in
  express (delete_resource_id "messages" (pretty (clock w (ticks w)))) after
  = (Response 200 (Some success),
     store db (emit (EvWrite db) (emit EvRead after))) ∧
  disk (store db (emit (EvWrite db) (emit EvRead after))) = disk w.
Proof.
  intros Hbody Hdisk Hwr Hms Hnull Hnone after.
  destruct (post_contact_after body w db ms Hbody Hdisk Hwr Hms) as (Hdisk1 & Hwr1 & _).
  fold after in Hdisk1, Hwr1.
  set (record := newMessage (clock w (ticks w)) (supplied body "name")
                   (supplied body "phone") (supplied body "email")
                   (supplied body "company") (supplied body "message")
                   (Date_toISOString (clock w (S (ticks w))))) in *.
  assert (has_id (pretty (clock w (ticks w))) (JObj record) = true) as Hhas.
  { apply has_id_true. exists record. split; [done|]. apply newMessage_fields. }
  assert (without (pretty (clock w (ticks w))) (ms ++ [JObj record]) = ms) as Hwithout.
  { unfold without. rewrite filter_app. fold (without (pretty (clock w (ticks w))) ms).
    rewrite (without_none _ _ Hnone), filter_cons, decide_False by (by rewrite Hhas).
    cbn. by rewrite app_nil_r. }
  split; [|by rewrite Hdisk].
  unfold express.
  rewrite (delete_resource_id_run "messages" _ after _ (ms ++ [JObj record]) Hdisk1 Hwr1);
    [|apply lookup_insert_eq|].
  - cbn zeta. rewrite Hwithout, insert_insert_eq, (insert_id db "messages") by done. done.
  - unfold no_null in *. rewrite forallb_app, Hnull. done.
Qed.

Lemma contact_then_delete_witness :
  let after := (post_contact (obj [("name", JStr "Ann")]) Sample.w).2 in
  express (delete_resource_id "messages" (pretty (clock Sample.w (ticks Sample.w)))) after
  = (Response 200 (Some success),
     store Sample.db (emit (EvWrite Sample.db) (emit EvRead after))) ∧
  disk (store Sample.db (emit (EvWrite Sample.db) (emit EvRead after))) = disk Sample.w.
Proof.
  apply (contact_then_delete (obj [("name", JStr "Ann")]) Sample.w Sample.db []);
    [discriminate|reflexivity..].
Defined.

(** X20.  When the document has no [messages] array, or cannot be written,
    a submission is answered with the 500 failure: nothing is stored and no
    mail is handed to the transport. *)
Theorem contact_needs_messages body w db :
  disk w = Doc db →
  (∀ ms, db !! "messages" ≠ Some (JArr ms)) ∨ writable w = false →
  (post_contact body w).1 = Ok (Response 500 (Some submission_failed)) ∧
  disk (post_contact body w).2 = disk w ∧
  writes (events w (post_contact body w).2) = 0%nat ∧
  sends (events w (post_contact body w).2) = 0%nat.
Proof.
  intros Hdisk Hcase.
  assert (body = JNull ∨ disk w = NoFile ∨ disk w = NotJSON ∨
          (∃ db, disk w = Doc db ∧
                 (as_array (db !! "messages") = Throw TypeError ∨ writable w = false)))
    as Hfail.
  { do 3 right. exists db. split; [done|].
    destruct Hcase as [Hms|Hwr]; [left; by apply as_array_throws|by right]. }
  destruct (post_contact_not_stored body w Hfail) as (w' & -> & Hrest). done.
Qed.

Lemma contact_needs_messages_witness :
  let w := MkWorld (Doc (delete "messages" Sample.db)) true true (clock Sample.w) 0 [] in
  (post_contact (obj [("name", JStr "Ann")]) w).1
  = Ok (Response 500 (Some submission_failed)) ∧
  disk (post_contact (obj [("name", JStr "Ann")]) w).2 = disk w ∧
  writes (events w (post_contact (obj [("name", JStr "Ann")]) w).2) = 0%nat ∧
  sends (events w (post_contact (obj [("name", JStr "Ann")]) w).2) = 0%nat.
Proof.
  apply (contact_needs_messages (obj [("name", JStr "Ann")])
           (MkWorld (Doc (delete "messages" Sample.db)) true true (clock Sample.w) 0 [])
           (delete "messages" Sample.db)); [reflexivity|].
  left. intros ms. vm_compute. discriminate.
Defined.


(** ** The timestamp of a stored message *)

Lemma all_from_spec f n z :
  all_from f n z = true → ∀ k, z ≤ k < z + Z.of_nat n → f k = true.
Proof.
  revert z. induction n as [|n IH]; intros z Hall k Hk; [lia|].
  cbn [all_from] in Hall. destruct (f z) eqn:Hz; [|done].
  destruct (decide (k = z)) as [->|Hne]; [done|].
  apply (IH (z + 1) Hall). lia.
Qed.

Lemma padded_2 n : 0 ≤ n < 100 → padded 2 n = true.
Proof. apply (all_from_spec (padded 2) (Z.to_nat 100) 0). vm_compute. reflexivity. Qed.

Lemma padded_3 n : 0 ≤ n < 1000 → padded 3 n = true.
Proof. apply (all_from_spec (padded 3) (Z.to_nat 1000) 0). vm_compute. reflexivity. Qed.

Lemma padded_4 n : 0 ≤ n < 10000 → padded 4 n = true.
Proof. apply (all_from_spec (padded 4) (Z.to_nat 10000) 0). vm_compute. reflexivity. Qed.

Lemma days_ok doe : 0 ≤ doe < 146097 → day_ok doe = true.
Proof. apply (all_from_spec day_ok (Z.to_nat 146097) 0). vm_compute. reflexivity. Qed.

Lemma civil_from_days_era days :
  let era := (days + 719468) / 146097 in
  let doe := days + 719468 - era * 146097 in
  civil_from_days days
  = let '(y, m, d) := civil_from_days (doe - 719468) in (y + era * 400, m, d).
Proof.
  cbv zeta. set (era := (days + 719468) / 146097).
  set (doe := days + 719468 - era * 146097).
  assert (0 ≤ doe < 146097) as Hdoe by (unfold doe, era; Z.div_mod_to_equations; lia).
  unfold civil_from_days. cbv zeta.
  replace (doe - 719468 + 719468) with doe by lia.
  rewrite (Z.div_small doe 146097) by done.
  replace (doe - 0 * 146097) with doe by lia.
  fold era. fold doe. f_equal. f_equal. lia.
Qed.

Lemma civil_from_days_bounds days :
  0 ≤ days < 2932897 →
  ∃ y m d, civil_from_days days = (y, m, d) ∧
           1970 ≤ y ≤ 9999 ∧ 1 ≤ m ≤ 12 ∧ 1 ≤ d ≤ 31.
Proof.
  intros Hdays. rewrite civil_from_days_era. cbv zeta.
  set (era := (days + 719468) / 146097).
  set (doe := days + 719468 - era * 146097).
  assert (0 ≤ doe < 146097) as Hdoe by (unfold doe, era; Z.div_mod_to_equations; lia).
  assert (4 ≤ era ≤ 24) as Hera by (unfold era; Z.div_mod_to_equations; lia).
  assert (era = 4 → 135080 ≤ doe) as Hfirst by (unfold doe; lia).
  assert (era = 24 → doe ≤ 146036) as Hlast by (unfold doe; lia).
  pose proof (days_ok doe Hdoe) as Hok. unfold day_ok in Hok.
  destruct (civil_from_days (doe - 719468)) as [[y m] d].
  exists (y + era * 400), m, d. split; [done|].
  rewrite !andb_true_iff, !orb_true_iff, !Z.leb_le, !Z.ltb_lt in Hok.
  lia.
Qed.

Lemma length_list_ascii_of_string s :
  length (String.list_ascii_of_string s) = String.length s.
Proof. induction s as [|c s IH]; [done|]. cbn. by rewrite IH. Qed.

Lemma padded_chars width n :
  padded width n = true →
  ∃ cs, String.list_ascii_of_string (pad width n) = cs ∧ length cs = width ∧
        forallb is_digit cs = true.
Proof.
  unfold padded, is_digits. intros [Hlen Hdigits]%andb_true_iff.
  exists (String.list_ascii_of_string (pad width n)).
  split; [reflexivity|]. split; [|exact Hdigits].
  rewrite length_list_ascii_of_string. by apply Nat.eqb_eq.
Qed.

Lemma list_ascii_of_string_app s1 s2 :
  String.list_ascii_of_string (s1 +:+ s2)
  = String.list_ascii_of_string s1 ++ String.list_ascii_of_string s2.
Proof.
  induction s1 as [|c s1 IH]; [done|].
  change (String c s1 +:+ s2) with (String c (s1 +:+ s2)).
  cbn [String.list_ascii_of_string app]. by rewrite IH.
Qed.

(** For a time from 1970 to the end of the year 9999, [toISOString] gives
    the 24 characters [YYYY-MM-DDTHH:mm:ss.sssZ]. *)
Lemma Date_toISOString_shape t :
  0 ≤ t < 253402300800000 → iso_shaped (Date_toISOString t) = true.
Proof.
  intros Ht. unfold Date_toISOString.
  destruct (civil_from_days_bounds (t / 86400000)) as (y & m & d & -> & Hy & Hm & Hd).
  { Z.div_mod_to_equations. lia. }
  cbv zeta. set (ms := t mod 86400000).
  assert (0 ≤ ms < 86400000) as Hms by (unfold ms; Z.div_mod_to_equations; lia).
  assert (year_string y = pad 4 y) as ->.
  { unfold year_string. by rewrite !(proj2 (Z.leb_le _ _)) by lia. }
  destruct (padded_chars 4 y) as (cy & Hcy & Hly & Hdy); [apply padded_4; lia|].
  destruct (padded_chars 2 m) as (cm & Hcm & Hlm & Hdm); [apply padded_2; lia|].
  destruct (padded_chars 2 d) as (cd & Hcd & Hld & Hdd); [apply padded_2; lia|].
  destruct (padded_chars 2 (ms / 3600000)) as (ch & Hch & Hlh & Hdh);
    [apply padded_2; Z.div_mod_to_equations; lia|].
  destruct (padded_chars 2 (ms / 60000 mod 60)) as (cn & Hcn & Hln & Hdn);
    [apply padded_2; Z.div_mod_to_equations; lia|].
  destruct (padded_chars 2 (ms / 1000 mod 60)) as (cs & Hcs & Hls & Hds);
    [apply padded_2; Z.div_mod_to_equations; lia|].
  destruct (padded_chars 3 (ms mod 1000)) as (cf & Hcf & Hlf & Hdf);
    [apply padded_3; Z.div_mod_to_equations; lia|].
  unfold iso_shaped. rewrite !list_ascii_of_string_app, Hcy, Hcm, Hcd, Hch, Hcn, Hcs, Hcf.
  destruct cy as [|y1 [|y2 [|y3 [|y4 [|]]]]]; try done.
  destruct cm as [|m1 [|m2 [|]]]; try done.
  destruct cd as [|d1 [|d2 [|]]]; try done.
  destruct ch as [|h1 [|h2 [|]]]; try done.
  destruct cn as [|n1 [|n2 [|]]]; try done.
  destruct cs as [|s1 [|s2 [|]]]; try done.
  destruct cf as [|f1 [|f2 [|f3 [|]]]]; try done.
  cbn in *.
  repeat match goal with
         | H : _ && _ = true |- _ => apply andb_true_iff in H as [? ?]
         end.
  repeat match goal with
         | H : is_digit _ = true |- _ => rewrite H; clear H
         end.
  done.
Qed.

(** X21.  With the clock between 1970 and the end of the year 9999, the
    [created_at] of a stored message has the 24 characters
    [YYYY-MM-DDTHH:mm:ss.sssZ]. *)
Theorem contact_created_at_shape body w db ms :
  body ≠ JNull → disk w = Doc db → writable w = true →
  db !! "messages" = Some (JArr ms) →
  0 ≤ clock w (S (ticks w)) < 253402300800000 →
  ∃ record stamp,
    disk (post_contact body w).2 = Doc (<["messages" := JArr (ms ++ [JObj record])]> db) ∧
    record !! "created_at" = Some (JStr stamp) ∧
    iso_shaped stamp = true ∧
    String.length stamp = 24%nat.
Proof.
  intros Hbody Hdisk Hwr Hms Hclock.
  destruct (post_contact_after body w db ms Hbody Hdisk Hwr Hms) as (Hafter & _).
  pose proof (Date_toISOString_shape _ Hclock) as Hshape.
  eexists _, _. split_and!; [exact Hafter|apply newMessage_fields|exact Hshape|].
  rewrite <- length_list_ascii_of_string. unfold iso_shaped in Hshape.
  destruct (String.list_ascii_of_string (Date_toISOString (clock w (S (ticks w)))))
    as [|? l]; [done|].
  do 23 (destruct l as [|? l]; [done|]). by destruct l.
Qed.

Lemma contact_created_at_shape_witness :
  ∃ record stamp,
    disk (post_contact (obj [("name", JStr "Ann")]) Sample.w).2
    = Doc (<["messages" := JArr ([] ++ [JObj record])]> Sample.db) ∧
    record !! "created_at" = Some (JStr stamp) ∧
    iso_shaped stamp = true ∧
    String.length stamp = 24%nat.
Proof.
  apply (contact_created_at_shape (obj [("name", JStr "Ann")]) Sample.w Sample.db []);
    [discriminate|reflexivity|reflexivity|reflexivity|cbn; lia].
Defined.
